(** * Trading decision pipeline: a shallow embedding of the Python sources

    The first part embeds the sources, one module per source file:
    - [Models]            core/models.py
    - [BaseCondition]     conditions/base_condition.py
    - [PCS]               conditions/exit_condition_factory.py, config/constants.py
    - [MovingAverage]     conditions/entry/moving_average.py
    - [PriceChannel]      conditions/entry/price_channel.py
    - [Risk]              risk/risk_manager.py
    - [Engine]            core/trading_engine.py

    The second part ([..Terms]) holds the predicates the properties are
    stated with and the sample inputs; the third part ([..Spec]) holds the
    lemmas and the theorems C1 to C10.

    Conventions of the embedding.
    - Python [float] values are read as exact rationals ([Q]); comparisons are
      the boolean comparisons of [Q], and a division by zero raises
      [ZeroDivisionError] as it does in Python.
    - A Python call that may raise returns a [result]; a [try/except] block is
      a [match] on it.
    - A [dict] with string keys whose iteration order is not used is a
      [gmap string _]; a dict that the code iterates over is an association
      list, in insertion order.
    - An object mutated by a method is passed in and returned.
    - The clock is an argument: [now] for [int(time.time())] and
      [datetime.now().timestamp()], [today] for [datetime.now().date()]. *)

From Stdlib Require Import ZArith QArith String List Bool Lia Lqa.
From stdpp Require Import gmap strings list.
Import ListNotations.

Local Open Scope string_scope.
Local Open Scope Z_scope.

(** ** Python values and exceptions *)

Inductive PyExn : Type :=
| ValueError
| TypeError
| AttributeError
| ZeroDivisionError.

Inductive result (A : Type) : Type :=
| Ret (a : A)
| Raise (e : PyExn).
Arguments Ret {A} a.
Arguments Raise {A} e.

#[global] Instance result_ret : MRet result := fun A a => Ret a.
#[global] Instance result_bind : MBind result := fun A B k r =>
  match r with
  | Ret a => k a
  | Raise e => Raise e
  end.

(** Comparisons on numbers, as Python evaluates them. *)
Definition Qleb (x y : Q) : bool := Qle_bool x y.
Definition Qltb (x y : Q) : bool := negb (Qle_bool y x).
Definition Qgeb (x y : Q) : bool := Qleb y x.
Definition Qgtb (x y : Q) : bool := Qltb y x.
Definition Qeqb (x y : Q) : bool := Qeq_bool x y.

(** [x / y] on floats. *)
Definition pydiv (x y : Q) : result Q :=
  if Qeqb y 0 then Raise ZeroDivisionError else Ret (x / y)%Q.

(** [min(x, y)] and [max(x, y)] of two numbers: Python returns the first
    argument unless the second is strictly smaller (resp. larger). *)
Definition pymin (x y : Q) : Q := if Qltb y x then y else x.
Definition pymax (x y : Q) : Q := if Qgtb y x then y else x.

(** [abs(x)]. *)
Definition pyabs (x : Q) : Q := if Qltb x 0 then (- x)%Q else x.

(** [sum(l)] over a list of floats. *)
Definition pysum (l : list Q) : Q := fold_left Qplus l 0%Q.

(** [l[start:]] for an integer [start], with Python's treatment of a
    negative index and of an index past either end. *)
Definition slice_from {A : Type} (start : Z) (l : list A) : list A :=
  let n := Z.of_nat (length l) in
  let i := if start <? 0 then Z.max 0 (n + start) else Z.min start n in
  skipn (Z.to_nat i) l.

(** [max(l)] and [min(l)] over a list: [ValueError] on the empty list, the
    first extremal element otherwise. *)
Definition pymax_list (l : list Q) : result Q :=
  match l with
  | [] => Raise ValueError
  | x :: r => Ret (fold_left pymax r x)
  end.

Definition pymin_list (l : list Q) : result Q :=
  match l with
  | [] => Raise ValueError
  | x :: r => Ret (fold_left pymin r x)
  end.

(** ** core/models.py *)
Module Models.

Inductive SignalType : Type := BUY | SELL.
Inductive PositionSide : Type := LONG | SHORT.

(** [SignalType.value]. *)
Definition SignalType_value (t : SignalType) : string :=
  match t with BUY => "BUY" | SELL => "SELL" end.

(** [SignalType(s)]: lookup of an enum member by value. *)
Definition SignalType_of (s : string) : result SignalType :=
  if String.eqb s "BUY" then Ret BUY
  else if String.eqb s "SELL" then Ret SELL
  else Raise ValueError.

(** [PositionSide(s)]. *)
Definition PositionSide_of (s : string) : result PositionSide :=
  if String.eqb s "LONG" then Ret LONG
  else if String.eqb s "SHORT" then Ret SHORT
  else Raise ValueError.

(** The value a caller passes for an enum-typed dataclass field: a member of
    the enum, a string, or an object of another type. *)
Inductive EnumArg (E : Type) : Type :=
| AMember (e : E)
| AStr (s : string)
| AOther.
Arguments AMember {E} e.
Arguments AStr {E} s.
Arguments AOther {E}.

(** What the [side] field of a [Position] holds after [__post_init__]:
    a member of [PositionSide], or the foreign object left untouched. *)
Inductive SideVal : Type :=
| SideOf (s : PositionSide)
| SideForeign.

(** Values stored in the [metadata] dict of a signal. *)
Inductive MetaVal : Type :=
| MBool (b : bool)
| MStr (s : string)
| MInt (z : Z)
| MNum (q : Q)
| MDict (d : list (string * Q)).

Record MarketData : Type := mkMarketData {
  md_symbol : string;
  md_current_price : Q;
  close_prices : list Q;
  high_prices : list Q;
  low_prices : list Q;
  md_volume : Q;
  md_timestamp : Z
}.

(** [MarketData.__post_init__]. *)
Definition MarketData_post_init (m : MarketData) : result MarketData :=
  if String.eqb (md_symbol m) "" then Raise ValueError
  else if Qleb (md_current_price m) 0 then Raise ValueError
  else if Nat.eqb (length (close_prices m)) 0 then Raise ValueError
  else Ret m.

Record Signal : Type := mkSignal {
  type : SignalType;
  symbol : string;
  price : Q;
  confidence : Q;
  source : string;
  timestamp : Z;
  metadata : gmap string MetaVal
}.

(** [Signal(type, symbol, price, confidence, source, timestamp, metadata)]:
    the generated [__init__] followed by [__post_init__]. *)
Definition Signal_new (ty : EnumArg SignalType) (sym : string) (p c : Q)
    (src : string) (ts : Z) (meta : gmap string MetaVal) : result Signal :=
  t ← match ty with
       | AMember t => Ret t
       | AStr s => SignalType_of s
       | AOther => Raise ValueError
       end;
  if String.eqb sym "" then Raise ValueError
  else if Qleb p 0 then Raise ValueError
  else if negb (Qleb 0 c && Qleb c 1) then Raise ValueError
  else Ret (mkSignal t sym p c src ts meta).

Record Position : Type := mkPosition {
  pos_symbol : string;
  side : SideVal;
  size : Q;
  entry_price : Q;
  current_price : Q;
  unrealized_pnl : Q;
  realized_pnl : Q;
  leverage : Z;
  margin : Q;
  pos_timestamp : Z
}.

(** [Position(...)]: the generated [__init__] followed by [__post_init__]. *)
Definition Position_new (sym : string) (sd : EnumArg PositionSide)
    (sz entry cur upnl rpnl : Q) (lev : Z) (mg : Q) (ts : Z)
    : result Position :=
  s ← match sd with
       | AMember s => Ret (SideOf s)
       | AStr str => s ← PositionSide_of str; Ret (SideOf s)
       | AOther => Ret SideForeign
       end;
  if Qltb sz 0 then Raise ValueError
  else if Qleb entry 0 then Raise ValueError
  else if Qleb cur 0 then Raise ValueError
  else Ret (mkPosition sym s sz entry cur upnl rpnl lev mg ts).

(** [Position.is_long]. *)
Definition is_long (p : Position) : bool :=
  match side p with SideOf LONG => true | _ => false end.

(** [Position.calculate_pnl]. *)
Definition calculate_pnl (p : Position) : Q :=
  if Qeqb (size p) 0 then 0%Q
  else if is_long p then ((current_price p - entry_price p) * size p)%Q
  else ((entry_price p - current_price p) * size p)%Q.

(** [Position.calculate_pnl_percentage]. *)
Definition calculate_pnl_percentage (p : Position) : result Q :=
  if Qeqb (entry_price p) 0 then Ret 0%Q
  else
    let pnl := calculate_pnl p in
    let invested_amount := (entry_price p * size p)%Q in
    r ← pydiv pnl invested_amount;
    Ret (r * 100)%Q.

(** The argument of an enum-typed field names a member of the enum. *)
Definition names_signal_type (ty : EnumArg SignalType) : Prop :=
  match ty with
  | AMember _ => True
  | AStr s => s = "BUY" \/ s = "SELL"
  | AOther => False
  end.

Definition acceptable_side (sd : EnumArg PositionSide) : Prop :=
  match sd with
  | AStr s => s = "LONG" \/ s = "SHORT"
  | _ => True
  end.

End Models.

(** ** conditions/base_condition.py *)
Module BaseCondition.
Import Models.

(** A condition as the manager and the engine see it during one cycle:
    [get_name()], [is_active()] and [evaluate(market_data, position)].
    The entry path calls [evaluate] with [position = None]. *)
Record Condition : Type := mkCondition {
  name : string;
  is_enabled : bool;
  evaluate : MarketData -> option Position -> result (option Signal)
}.

Definition is_active (c : Condition) : bool := is_enabled c.

(** The evaluation statistics every condition keeps
    ([BaseCondition._update_evaluation_stats]). *)
Record Stats : Type := mkStats {
  evaluation_count : Z;
  last_evaluation_time : Z;
  last_signal : option Signal
}.

Definition _update_evaluation_stats (now : Z) (st : Stats)
    (signal : option Signal) : Stats :=
  mkStats (evaluation_count st + 1) now signal.

(** [BaseCondition._validate_market_data]. *)
Definition _validate_market_data (md : MarketData) : bool :=
  if Nat.eqb (length (close_prices md)) 0 then false
  else if Qleb (md_current_price md) 0 then false
  else true.

(** [EntryCondition._create_signal]. *)
Definition _create_signal (now : Z) (self_name : string) (md : MarketData)
    (signal_type : string) (conf : Q) (meta : gmap string MetaVal)
    : result Signal :=
  t ← SignalType_of signal_type;
  Signal_new (AMember t) (md_symbol md) (md_current_price md) conf
             self_name now meta.

(** [ExitCondition._create_exit_signal]: the signal closes the position, so
    it points the other way. *)
Definition _create_exit_signal (now : Z) (self_name : string)
    (md : MarketData) (position : Position) (conf : Q)
    (meta : gmap string MetaVal) : result Signal :=
  let signal_type := if is_long position then SELL else BUY in
  Signal_new (AMember signal_type) (md_symbol md) (md_current_price md) conf
             self_name now meta.

(** [ExitCondition._validate_position]. *)
Definition _validate_position (position : option Position) : bool :=
  match position with
  | None => false
  | Some p => if Qleb (size p) 0 then false else true
  end.

Record ConditionManager : Type := mkConditionManager {
  entry_conditions : list Condition;
  exit_conditions : list Condition;
  combination_mode : string
}.

(** [max(signals, key=lambda s: s.confidence)]: the first signal of maximal
    confidence. *)
Definition max_by_confidence (signals : list Signal) : option Signal :=
  match signals with
  | [] => None
  | s :: r =>
      Some (fold_left
              (fun best x => if Qgtb (confidence x) (confidence best)
                             then x else best) r s)
  end.

(** [ConditionManager._create_combined_signal]. *)
Definition _create_combined_signal (now : Z) (base_signal : Signal)
    (conf : Q) (src : string) : result Signal :=
  Signal_new (AMember (type base_signal)) (symbol base_signal)
             (price base_signal) conf src now
             (<["combined" := MBool true]>
                (<["original_source" := MStr (source base_signal)]> ∅)).

(** [ConditionManager._combine_entry_signals]. *)
Definition _combine_entry_signals (now : Z) (self : ConditionManager)
    (signals : list Signal) : result (option Signal) :=
  match signals with
  | [] => Ret None
  | first :: _ =>
      if String.eqb (combination_mode self) "AND" then
        if Nat.eqb (length signals)
                   (length (List.filter is_active (entry_conditions self)))
        then
          avg_confidence ←
            pydiv (pysum (map confidence signals))
                  (inject_Z (Z.of_nat (length signals)));
          s ← _create_combined_signal now first avg_confidence
                "AND_COMBINATION";
          Ret (Some s)
        else Ret None
      else Ret (max_by_confidence signals)
  end.

(** The loop of [evaluate_entry_conditions]: a condition that raises is
    logged and contributes nothing. *)
Definition collect_entry_signals (md : MarketData)
    (active_conditions : list Condition) : list Signal :=
  flat_map (fun c => match evaluate c md None with
                     | Ret (Some s) => [s]
                     | _ => []
                     end) active_conditions.

(** [ConditionManager.evaluate_entry_conditions]. *)
Definition evaluate_entry_conditions (now : Z) (self : ConditionManager)
    (md : MarketData) : result (option Signal) :=
  match entry_conditions self with
  | [] => Ret None
  | _ =>
      let active_conditions := List.filter is_active (entry_conditions self) in
      match active_conditions with
      | [] => Ret None
      | _ => _combine_entry_signals now self
               (collect_entry_signals md active_conditions)
      end
  end.

(** The loop of [evaluate_exit_conditions]: the first signal is returned at
    once, the conditions after it are not evaluated. *)
Fixpoint first_exit_signal (md : MarketData) (position : Position)
    (active_conditions : list Condition) : option Signal :=
  match active_conditions with
  | [] => None
  | c :: rest =>
      match evaluate c md (Some position) with
      | Ret (Some s) => Some s
      | _ => first_exit_signal md position rest
      end
  end.

(** [ConditionManager.evaluate_exit_conditions]. *)
Definition evaluate_exit_conditions (self : ConditionManager)
    (md : MarketData) (position : Position) : option Signal :=
  match exit_conditions self with
  | [] => None
  | _ =>
      let active_conditions := List.filter is_active (exit_conditions self) in
      match active_conditions with
      | [] => None
      | _ => first_exit_signal md position active_conditions
      end
  end.

End BaseCondition.

(** ** conditions/exit_condition_factory.py and config/constants.py *)
Module PCS.
Import Models.

(** One row of the ladder: [{"step": _, "tp": _, "sl": _, "enabled": _}]. *)
Record Level : Type := mkLevel {
  step : Z;
  tp : Q;
  sl : Q;
  enabled : bool
}.

(** [config.constants.PCS_DEFAULT_LEVELS] (rows carry no ["enabled"] key). *)
Definition default_row (s : Z) (t l : Q) : Z * Q * Q := (s, t, l).

Definition PCS_DEFAULT_LEVELS : list (Z * Q * Q) :=
  [ default_row 1 2 (-1); default_row 2 4 (-2); default_row 3 6 (-3);
    default_row 4 8 (-4); default_row 5 10 (-5); default_row 6 12 (-6);
    default_row 7 15 (-8); default_row 8 20 (-10); default_row 9 25 (-12);
    default_row 10 30 (-15); default_row 11 40 (-20);
    default_row 12 50 (-25) ].

(** An entry of [config.exit.pcs_steps]; a missing key is [None]. *)
Record StepEntry : Type := mkStepEntry {
  se_step : option Z;
  se_enabled : option bool;
  se_tp : option Q;
  se_sl : option Q
}.

Definition const_level (step_no : Z) : option (Z * Q * Q) :=
  List.find (fun lv => Z.eqb (fst (fst lv)) step_no) PCS_DEFAULT_LEVELS.

Definition level_of_entry (e : StepEntry) : result Level :=
  step_no ← match se_step e with
            | Some n => Ret n
            | None => Raise TypeError
            end;
  let const := const_level step_no in
  let tp := match se_tp e, const with
            | Some v, _ => v
            | None, Some c => snd (fst c)
            | None, None => 0%Q
            end in
  let sl := match se_sl e, const with
            | Some v, _ => v
            | None, Some c => snd c
            | None, None => 0%Q
            end in
  Ret (mkLevel step_no tp sl (default true (se_enabled e))).

Fixpoint levels_of_entries (steps : list StepEntry) : result (list Level) :=
  match steps with
  | [] => Ret []
  | e :: rest =>
      lv ← level_of_entry e;
      lvs ← levels_of_entries rest;
      Ret (lv :: lvs)
  end.

(** [PCSSystemCondition._load_pcs_levels_from_config]; the argument is what
    reading [get_settings_manager().config.exit.pcs_steps] gave. *)
Definition _load_pcs_levels_from_config (pcs_steps : result (list StepEntry))
    : list Level :=
  let fallback :=
    map (fun lv => mkLevel (fst (fst lv)) (snd (fst lv)) (snd lv) true)
        PCS_DEFAULT_LEVELS in
  match steps ← pcs_steps; levels_of_entries steps with
  | Ret (lv :: lvs) => lv :: lvs
  | _ => fallback
  end.

Record PCSSystemCondition : Type := mkPCS {
  name : string;
  is_enabled : bool;
  active_steps : list Z;
  auto_leverage : bool;
  pcs_levels : list Level
}.

(** [PCSSystemCondition.get_active_levels]. *)
Definition get_active_levels (self : PCSSystemCondition) : list Level :=
  List.filter
    (fun lv => enabled lv && existsb (Z.eqb (step lv)) (active_steps self))
    (pcs_levels self).

(** [sorted(l, key=lambda x: x["step"], reverse=rev)]: Python's sort is
    stable, also with [reverse=True]; stable insertion gives the same list. *)
Fixpoint insert_by_step (rev : bool) (x : Level) (l : list Level)
    : list Level :=
  match l with
  | [] => [x]
  | y :: r =>
      if (if rev then step y <=? step x else step x <=? step y)
      then x :: y :: r
      else y :: insert_by_step rev x r
  end.

Definition sorted_by_step (rev : bool) (l : list Level) : list Level :=
  foldr (insert_by_step rev) [] l.

(** [PCSSystemCondition.evaluate]. *)
Definition evaluate (now : Z) (self : PCSSystemCondition) (md : MarketData)
    (position : option Position) : result (option Signal) :=
  match position with
  | None => Ret None
  | Some pos =>
      if negb (BaseCondition._validate_position position) then Ret None
      else
        match calculate_pnl_percentage pos with
        | Raise _ => Ret None
        | Ret pnl_pct =>
            let active_levels := get_active_levels self in
            match active_levels with
            | [] => Ret None
            | _ =>
                let tp_candidates :=
                  List.filter (fun lv => Qgeb pnl_pct (tp lv)) active_levels in
                let sl_candidates :=
                  List.filter (fun lv => Qleb pnl_pct (sl lv)) active_levels in
                let choice :=
                  match sorted_by_step false sl_candidates with
                  | c :: _ => Some (c, "SL", (9 # 10)%Q)
                  | [] =>
                      match sorted_by_step true tp_candidates with
                      | c :: _ => Some (c, "TP", (8 # 10)%Q)
                      | [] => None
                      end
                  end in
                match choice with
                | None => Ret None
                | Some (chosen, reason, conf) =>
                    let meta : gmap string MetaVal :=
                      <["pcs_step" := MInt (step chosen)]>
                      (<["pcs_tp" := MNum (tp chosen)]>
                      (<["pcs_sl" := MNum (sl chosen)]>
                      (<["reason" := MStr reason]>
                      (<["pnl_pct" := MNum pnl_pct]> ∅)))) in
                    s ← BaseCondition._create_exit_signal now (name self)
                          md pos conf meta;
                    Ret (Some s)
                end
            end
        end
  end.

End PCS.

(** ** conditions/entry/moving_average.py *)
Module MovingAverage.
Import Models.
Import BaseCondition(Stats, mkStats, _update_evaluation_stats).

Record MovingAverageCondition : Type := mkMA {
  ma_name : string;
  ma_is_enabled : bool;
  ma_confidence_threshold : Q;
  period : Z;
  condition_type : string;
  min_data_points : Z;
  ma_stats : Stats
}.

(** [MovingAverageCondition.__init__] for the configured [enabled],
    [confidence_threshold], [period] and [condition_type]. *)
Definition MovingAverageCondition_init (enabled : bool) (threshold : Q)
    (period : Z) (condition_type : string) : MovingAverageCondition :=
  mkMA "이동평균 조건" enabled threshold period condition_type
       (Z.max period 4) (mkStats 0 0 None).

(** [MovingAverageCondition._calculate_moving_average]. *)
Definition _calculate_moving_average (self : MovingAverageCondition)
    (close_prices : list Q) : option Q :=
  if Z.of_nat (length close_prices) <? period self then None
  else
    let recent_prices := slice_from (-4) close_prices in
    match pydiv (pysum recent_prices)
                (inject_Z (Z.of_nat (length recent_prices))) with
    | Ret ma_value => Some ma_value
    | Raise _ => None
    end.

(** [MovingAverageCondition._calculate_confidence]. *)
Definition _calculate_confidence (price ma_value : Q) (direction : string)
    : Q :=
  let price_diff := pyabs (price - ma_value) in
  match pydiv price_diff ma_value with
  | Raise _ => 0%Q
  | Ret r =>
      let percentage_diff := (r * 100)%Q in
      let base_confidence := pymin (percentage_diff / 2) (8 # 10) in
      let base_confidence :=
        if String.eqb direction "above" && Qgtb price ma_value
        then (base_confidence + (1 # 10))%Q
        else if String.eqb direction "below" && Qltb price ma_value
        then (base_confidence + (1 # 10))%Q
        else base_confidence in
      pymax 0 (pymin 1 base_confidence)
  end.

(** [MovingAverageCondition._evaluate_condition]. *)
Definition _evaluate_condition (now : Z) (self : MovingAverageCondition)
    (md : MarketData) (ma_value : Q) : result (option Signal) :=
  let current_price := md_current_price md in
  let open_price := default current_price (last (close_prices md)) in
  let ct := condition_type self in
  let fired : option (SignalType * Q) :=
    if String.eqb ct "close_above" then
      if Qgtb current_price ma_value
      then Some (BUY, _calculate_confidence current_price ma_value "above")
      else None
    else if String.eqb ct "close_below" then
      if Qltb current_price ma_value
      then Some (SELL, _calculate_confidence current_price ma_value "below")
      else None
    else if String.eqb ct "open_above" then
      if Qgtb open_price ma_value
      then Some (BUY, _calculate_confidence open_price ma_value "above")
      else None
    else if String.eqb ct "open_below" then
      if Qltb open_price ma_value
      then Some (SELL, _calculate_confidence open_price ma_value "below")
      else None
    else None in
  match fired with
  | Some (signal_type, conf) =>
      if Qgeb conf (ma_confidence_threshold self) then
        let meta : gmap string MetaVal :=
          <["ma_value" := MNum ma_value]>
          (<["price_vs_ma" := MNum (current_price - ma_value)]>
          (<["condition_type" := MStr ct]>
          (<["period" := MInt (period self)]> ∅))) in
        s ← BaseCondition._create_signal now (ma_name self) md
              (SignalType_value signal_type) conf meta;
        Ret (Some s)
      else Ret None
  | None => Ret None
  end.

(** The body of [MovingAverageCondition.evaluate], inside its [try]. *)
Definition evaluate_body (now : Z) (self : MovingAverageCondition)
    (md : MarketData) : result (option Signal * MovingAverageCondition) :=
  if negb (ma_is_enabled self) then Ret (None, self)
  else if negb (BaseCondition._validate_market_data md) then Ret (None, self)
  else if Z.of_nat (length (close_prices md)) <? min_data_points self
  then Ret (None, self)
  else
    match _calculate_moving_average self (close_prices md) with
    | None => Ret (None, self)
    | Some ma_value =>
        signal ← _evaluate_condition now self md ma_value;
        let self' :=
          mkMA (ma_name self) (ma_is_enabled self)
               (ma_confidence_threshold self) (period self)
               (condition_type self) (min_data_points self)
               (_update_evaluation_stats now (ma_stats self) signal) in
        Ret (signal, self')
    end.

(** [MovingAverageCondition.evaluate]: any exception is logged and the
    answer is [None]. *)
Definition evaluate (now : Z) (self : MovingAverageCondition)
    (md : MarketData) : option Signal * MovingAverageCondition :=
  match evaluate_body now self md with
  | Ret r => r
  | Raise _ => (None, self)
  end.

Record MultiTimeframeMACondition : Type := mkMTF {
  mtf_name : string;
  mtf_is_enabled : bool;
  mtf_confidence_threshold : Q;
  short_period : Z;
  long_period : Z;
  mtf_stats : Stats
}.

(** [MultiTimeframeMACondition._calculate_ma]. *)
Definition _calculate_ma (prices : list Q) (period : Z) : result (option Q) :=
  if Z.of_nat (length prices) <? period then Ret None
  else
    r ← pydiv (pysum (slice_from (- period) prices)) (inject_Z period);
    Ret (Some r).

(** [MultiTimeframeMACondition._calculate_crossover_confidence]. *)
Definition _calculate_crossover_confidence (short_ma long_ma : Q) : Q :=
  let ma_diff := pyabs (short_ma - long_ma) in
  match pydiv ma_diff long_ma with
  | Raise _ => 0%Q
  | Ret r =>
      let percentage_diff := (r * 100)%Q in
      let conf := pymin (percentage_diff / 1) (9 # 10) in
      pymax 0 (pymin 1 conf)
  end.

(** [MultiTimeframeMACondition._check_crossover]. *)
Definition _check_crossover (now : Z) (self : MultiTimeframeMACondition)
    (md : MarketData) (short_ma long_ma : Q) : result (option Signal) :=
  let meta (kind : string) : gmap string MetaVal :=
    <["short_ma" := MNum short_ma]>
    (<["long_ma" := MNum long_ma]>
    (<["crossover_type" := MStr kind]> ∅)) in
  if Qgtb short_ma long_ma then
    let conf := _calculate_crossover_confidence short_ma long_ma in
    if Qgeb conf (mtf_confidence_threshold self) then
      s ← BaseCondition._create_signal now (mtf_name self) md
            (SignalType_value BUY) conf (meta "golden_cross");
      Ret (Some s)
    else Ret None
  else if Qltb short_ma long_ma then
    let conf := _calculate_crossover_confidence short_ma long_ma in
    if Qgeb conf (mtf_confidence_threshold self) then
      s ← BaseCondition._create_signal now (mtf_name self) md
            (SignalType_value SELL) conf (meta "dead_cross");
      Ret (Some s)
    else Ret None
  else Ret None.

(** The body of [MultiTimeframeMACondition.evaluate], inside its [try]. *)
Definition mtf_evaluate_body (now : Z) (self : MultiTimeframeMACondition)
    (md : MarketData)
    : result (option Signal * MultiTimeframeMACondition) :=
  if negb (mtf_is_enabled self) || negb (BaseCondition._validate_market_data md)
  then Ret (None, self)
  else if Z.of_nat (length (close_prices md)) <? long_period self
  then Ret (None, self)
  else
    short_ma ← _calculate_ma (close_prices md) (short_period self);
    long_ma ← _calculate_ma (close_prices md) (long_period self);
    match short_ma, long_ma with
    | Some short_ma, Some long_ma =>
        signal ← _check_crossover now self md short_ma long_ma;
        let self' :=
          mkMTF (mtf_name self) (mtf_is_enabled self)
                (mtf_confidence_threshold self) (short_period self)
                (long_period self)
                (_update_evaluation_stats now (mtf_stats self) signal) in
        Ret (signal, self')
    | _, _ => Ret (None, self)
    end.

(** [MultiTimeframeMACondition.evaluate]. *)
Definition mtf_evaluate (now : Z) (self : MultiTimeframeMACondition)
    (md : MarketData) : option Signal * MultiTimeframeMACondition :=
  match mtf_evaluate_body now self md with
  | Ret r => r
  | Raise _ => (None, self)
  end.

End MovingAverage.

(** ** conditions/entry/price_channel.py *)
Module PriceChannel.
Import Models.

Record PriceChannelCondition : Type := mkPC {
  name : string;
  is_enabled : bool;
  confidence_threshold : Q;
  period : Z;
  upper_breakout : string;
  lower_breakout : string;
  breakout_threshold : Q;
  min_data_points : Z;
  stats : BaseCondition.Stats
}.

(** [PriceChannelCondition.__init__] with the defaults of the missing
    configuration keys given by the caller. *)
Definition PriceChannelCondition_init (enabled : bool)
    (confidence_threshold : Q) (period : Z)
    (upper_breakout lower_breakout : string) (breakout_threshold : Q)
    : PriceChannelCondition :=
  mkPC "Price Channel 조건" enabled confidence_threshold period
       upper_breakout lower_breakout breakout_threshold
       (Z.max period 10) (BaseCondition.mkStats 0 0 None).

(** The dict built by [_calculate_price_channel]. *)
Record Channel : Type := mkChannel {
  upper : Q;
  lower : Q;
  middle : Q;
  width : Q;
  width_percentage : Q
}.

Definition channel_dict (ch : Channel) : list (string * Q) :=
  [ ("upper", upper ch); ("lower", lower ch); ("middle", middle ch);
    ("width", width ch); ("width_percentage", width_percentage ch) ].

(** [PriceChannelCondition._calculate_price_channel]: its own [try] turns
    every exception into [None]. *)
Definition _calculate_price_channel (self : PriceChannelCondition)
    (md : MarketData) : option Channel :=
  let high_prices := slice_from (- period self) (high_prices md) in
  let low_prices := slice_from (- period self) (low_prices md) in
  if (Z.of_nat (length high_prices) <? period self)
     || (Z.of_nat (length low_prices) <? period self)
  then None
  else
    match (upper_line ← pymax_list high_prices;
           lower_line ← pymin_list low_prices;
           let middle_line := ((upper_line + lower_line) / 2)%Q in
           r ← pydiv (upper_line - lower_line) middle_line;
           Ret (mkChannel upper_line lower_line middle_line
                          (upper_line - lower_line) (r * 100))) with
    | Ret ch => Some ch
    | Raise _ => None
    end.

(** [PriceChannelCondition._calculate_breakout_confidence]. *)
Definition _calculate_breakout_confidence (current_price line_price : Q)
    (breakout_type : string) : Q :=
  match (if String.eqb breakout_type "upper"
         then r ← pydiv (current_price - line_price) line_price;
              Ret (r * 100)%Q
         else r ← pydiv (line_price - current_price) line_price;
              Ret (r * 100)%Q) with
  | Raise _ => 0%Q
  | Ret breakout_percentage =>
      let base_confidence := pymin (breakout_percentage / 2) (8 # 10) in
      let conf := pymax (3 # 10) base_confidence in
      pymin 1 conf
  end.

(** The signal built in either branch of [_evaluate_breakout]. *)
Definition breakout_signal (now : Z) (self : PriceChannelCondition)
    (md : MarketData) (channel : Channel) (kind direction : string)
    (conf : Q) (numerator line : Q) : result Signal :=
  let signal_type := if String.eqb direction "buy" then BUY else SELL in
  r ← pydiv numerator line;
  let meta : gmap string MetaVal :=
    <["channel" := MDict (channel_dict channel)]>
    (<["breakout_type" := MStr kind]>
    (<["breakout_direction" := MStr direction]>
    (<["breakout_percentage" := MNum (r * 100)]> ∅))) in
  BaseCondition._create_signal now (name self) md
    (SignalType_value signal_type) conf meta.

(** The lower half of [_evaluate_breakout]. *)
Definition lower_breakout_check (now : Z) (self : PriceChannelCondition)
    (md : MarketData) (channel : Channel) : result (option Signal) :=
  let current_price := md_current_price md in
  let lower_line := lower channel in
  if negb (String.eqb (lower_breakout self) "none") then
    let lower_breakout_price := (lower_line * (1 - breakout_threshold self))%Q in
    if Qltb current_price lower_breakout_price then
      let conf :=
        _calculate_breakout_confidence current_price lower_line "lower" in
      if Qgeb conf (confidence_threshold self) then
        s ← breakout_signal now self md channel "lower" (lower_breakout self)
              conf (lower_line - current_price) lower_line;
        Ret (Some s)
      else Ret None
    else Ret None
  else Ret None.

(** [PriceChannelCondition._evaluate_breakout]. *)
Definition _evaluate_breakout (now : Z) (self : PriceChannelCondition)
    (md : MarketData) (channel : Channel) : result (option Signal) :=
  let current_price := md_current_price md in
  let upper_line := upper channel in
  if negb (String.eqb (upper_breakout self) "none") then
    let upper_breakout_price := (upper_line * (1 + breakout_threshold self))%Q in
    if Qgtb current_price upper_breakout_price then
      let conf :=
        _calculate_breakout_confidence current_price upper_line "upper" in
      if Qgeb conf (confidence_threshold self) then
        s ← breakout_signal now self md channel "upper" (upper_breakout self)
              conf (current_price - upper_line) upper_line;
        Ret (Some s)
      else lower_breakout_check now self md channel
    else lower_breakout_check now self md channel
  else lower_breakout_check now self md channel.

(** The body of [PriceChannelCondition.evaluate], inside its [try]. *)
Definition evaluate_body (now : Z) (self : PriceChannelCondition)
    (md : MarketData) : result (option Signal * PriceChannelCondition) :=
  if negb (is_enabled self) then Ret (None, self)
  else if negb (BaseCondition._validate_market_data md) then Ret (None, self)
  else if (Z.of_nat (length (high_prices md)) <? min_data_points self)
          || (Z.of_nat (length (low_prices md)) <? min_data_points self)
  then Ret (None, self)
  else
    match _calculate_price_channel self md with
    | None => Ret (None, self)
    | Some channel =>
        signal ← _evaluate_breakout now self md channel;
        let self' :=
          mkPC (name self) (is_enabled self) (confidence_threshold self)
               (period self) (upper_breakout self) (lower_breakout self)
               (breakout_threshold self) (min_data_points self)
               (BaseCondition._update_evaluation_stats now (stats self)
                  signal) in
        Ret (signal, self')
    end.

(** [PriceChannelCondition.evaluate]. *)
Definition evaluate (now : Z) (self : PriceChannelCondition)
    (md : MarketData) : option Signal * PriceChannelCondition :=
  match evaluate_body now self md with
  | Ret r => r
  | Raise _ => (None, self)
  end.

End PriceChannel.

(** ** risk/risk_manager.py *)
Module Risk.
Import Models.

(** The configuration dict of the risk manager; a missing key is [None].
    [max_position_size] and [daily_limit] are the numbers that
    [_parse_position_size] and [_parse_daily_limit] read from their strings. *)
Record RiskConfig : Type := mkRiskConfig {
  cfg_max_leverage : option Z;
  cfg_max_positions : option Z;
  cfg_max_position_size : option Q;
  cfg_daily_max_trades : option Z;
  cfg_daily_limit : option Q
}.

(** A [RiskManager] object.  The last three fields are the instance
    attributes [account_balance], [daily_pnl] and [daily_loss_limit]:
    [None] while the attribute does not exist on the object. *)
Record RiskManager : Type := mkRiskManager {
  max_leverage : Z;
  max_positions : Z;
  max_position_size : Q;
  daily_max_trades : Z;
  daily_limit : Q;
  daily_trades : Z;
  daily_loss : Q;
  last_reset_date : Z;
  active_positions : list Position;
  account_balance : option Q;
  daily_pnl : option Q;
  daily_loss_limit : option Q
}.

(** [self.<attr>]: reading an attribute the object does not have raises
    [AttributeError]. *)
Definition getattr (a : option Q) : result Q :=
  match a with
  | Some v => Ret v
  | None => Raise AttributeError
  end.

(** [RiskManager.__init__]; [today] is [datetime.now().date()] as a day
    number. *)
Definition RiskManager_init (config : RiskConfig) (today : Z) : RiskManager :=
  mkRiskManager
    (default 10 (cfg_max_leverage config))
    (default 3 (cfg_max_positions config))
    (default 10%Q (cfg_max_position_size config))
    (default 50 (cfg_daily_max_trades config))
    (default 5%Q (cfg_daily_limit config))
    0 0%Q today [] None None None.

Definition set_counters (self : RiskManager) (trades : Z) (loss : Q)
    (date : Z) (positions : list Position) : RiskManager :=
  mkRiskManager (max_leverage self) (max_positions self)
    (max_position_size self) (daily_max_trades self) (daily_limit self)
    trades loss date positions
    (account_balance self) (daily_pnl self) (daily_loss_limit self).

(** [RiskManager._check_daily_trades]. *)
Definition _check_daily_trades (today : Z) (self : RiskManager)
    : bool * RiskManager :=
  let self' :=
    if last_reset_date self <? today
    then set_counters self 0 0%Q today (active_positions self)
    else self in
  (daily_trades self' <? daily_max_trades self', self').

(** [RiskManager._check_max_positions]. *)
Definition _check_max_positions (self : RiskManager) : bool :=
  Z.of_nat (length (active_positions self)) <? max_positions self.

(** [RiskManager._check_daily_loss]. *)
Definition _check_daily_loss (self : RiskManager) : result bool :=
  balance ← getattr (account_balance self);
  if Qgtb balance 0 then
    pnl ← getattr (daily_pnl self);
    balance ← getattr (account_balance self);
    r ← pydiv pnl balance;
    let daily_loss_pct := (r * 100)%Q in
    limit ← getattr (daily_loss_limit self);
    if Qleb daily_loss_pct (- limit) then Ret false else Ret true
  else Ret true.

(** [RiskManager._check_position_size]; a [Signal] has no attribute
    [position_value], so [getattr(signal, 'position_value', default)] is the
    default. *)
Definition _check_position_size (self : RiskManager) (signal : Signal)
    : result bool :=
  balance ← getattr (account_balance self);
  if Qgtb balance 0 then
    let position_value := max_position_size self in
    balance ← getattr (account_balance self);
    r ← pydiv position_value balance;
    let position_pct := (r * 100)%Q in
    if Qgtb position_pct (max_position_size self) then Ret false else Ret true
  else Ret true.

(** [RiskManager.validate_entry_signal]: the answer (or the exception) and
    the manager after the call. *)
Definition validate_entry_signal (today : Z) (self : RiskManager)
    (signal : Signal) : result bool * RiskManager :=
  let '(ok_trades, self) := _check_daily_trades today self in
  if negb ok_trades then (Ret false, self)
  else if negb (_check_max_positions self) then (Ret false, self)
  else
    (ok_loss ← _check_daily_loss self;
     if negb ok_loss then Ret false
     else
       ok_size ← _check_position_size self signal;
       if negb ok_size then Ret false else Ret true,
     self).

(** [RiskManager.update_position_opened]. *)
Definition update_position_opened (self : RiskManager) (position : Position)
    : RiskManager :=
  set_counters self (daily_trades self + 1) (daily_loss self)
    (last_reset_date self) (active_positions self ++ [position])%list.

(** Equality of two positions, as the dataclass [__eq__] compares them
    field by field. *)
Definition SideVal_eqb (a b : SideVal) : bool :=
  match a, b with
  | SideOf LONG, SideOf LONG => true
  | SideOf SHORT, SideOf SHORT => true
  | _, _ => false
  end.

Definition Position_eqb (a b : Position) : bool :=
  String.eqb (pos_symbol a) (pos_symbol b)
  && SideVal_eqb (side a) (side b)
  && Qeqb (size a) (size b)
  && Qeqb (entry_price a) (entry_price b)
  && Qeqb (current_price a) (current_price b)
  && Qeqb (unrealized_pnl a) (unrealized_pnl b)
  && Qeqb (realized_pnl a) (realized_pnl b)
  && Z.eqb (leverage a) (leverage b)
  && Qeqb (margin a) (margin b)
  && Z.eqb (pos_timestamp a) (pos_timestamp b).

(** [list.remove(x)] on a list that contains [x]: the first equal element
    goes. *)
Fixpoint remove_first (x : Position) (l : list Position) : list Position :=
  match l with
  | [] => []
  | y :: r => if Position_eqb y x then r else y :: remove_first x r
  end.

(** [RiskManager.update_position_closed]. *)
Definition update_position_closed (self : RiskManager) (position : Position)
    (pnl : Q) : RiskManager :=
  let positions :=
    if existsb (fun y => Position_eqb y position) (active_positions self)
    then remove_first position (active_positions self)
    else active_positions self in
  let loss := if Qltb pnl 0 then (daily_loss self + pyabs pnl)%Q
              else daily_loss self in
  set_counters self (daily_trades self) loss (last_reset_date self) positions.

(** [RiskManager.reset_daily_counters]. *)
Definition reset_daily_counters (today : Z) (self : RiskManager)
    : RiskManager :=
  set_counters self 0 0%Q today (active_positions self).

(** The assignment [risk_manager.max_leverage = value] made by the risk tab
    of the GUI, the only write to a [RiskManager] field from outside the
    class. *)
Definition set_max_leverage (self : RiskManager) (value : Z) : RiskManager :=
  mkRiskManager value (max_positions self)
    (max_position_size self) (daily_max_trades self) (daily_limit self)
    (daily_trades self) (daily_loss self) (last_reset_date self)
    (active_positions self)
    (account_balance self) (daily_pnl self) (daily_loss_limit self).

(** The states a [RiskManager] can be in: built by [__init__], then changed
    only by its methods and by the GUI's assignment. *)
Inductive reachable : RiskManager -> Prop :=
| reach_init config today :
    reachable (RiskManager_init config today)
| reach_validate today self signal :
    reachable self ->
    reachable (snd (validate_entry_signal today self signal))
| reach_opened self position :
    reachable self -> reachable (update_position_opened self position)
| reach_closed self position pnl :
    reachable self -> reachable (update_position_closed self position pnl)
| reach_reset today self :
    reachable self -> reachable (reset_daily_counters today self)
| reach_leverage self value :
    reachable self -> reachable (set_max_leverage self value).

End Risk.

(** ** core/trading_engine.py *)
Module Engine.
Import Models.
Import BaseCondition(Condition, mkCondition, is_active, evaluate,
                     max_by_confidence).

(** The engine fields the trading cycle reads.  [positions] and
    [market_data_cache] are dicts keyed by exchange name that the cycle
    iterates over, hence association lists in insertion order. *)
Record TradingEngine : Type := mkEngine {
  is_trading_enabled : bool;
  entry_conditions : list Condition;
  exit_conditions : list Condition;
  risk_manager : option Risk.RiskManager;
  combination_mode : string;
  positions : list (string * list Position);
  market_data_cache : list (string * MarketData)
}.

(** [signal.metadata[key] = value]. *)
Definition set_meta (key : string) (value : MetaVal) (s : Signal) : Signal :=
  mkSignal (type s) (symbol s) (price s) (confidence s) (source s)
           (timestamp s) (<[key := value]> (metadata s)).

(** The inner loop of [_evaluate_entry_conditions] for one exchange: every
    active condition is evaluated, each signal is tagged and kept; a
    condition that raises is logged and skipped. *)
Definition condition_signals (exchange_name : string) (md : MarketData)
    (conds : list Condition) : list Signal :=
  flat_map
    (fun c =>
       if is_active c then
         match evaluate c md None with
         | Ret (Some s) =>
             [set_meta "condition" (MStr (BaseCondition.name c))
                (set_meta "exchange" (MStr exchange_name) s)]
         | _ => []
         end
       else []) conds.

(** [not self.risk_manager or self.risk_manager.validate_entry_signal(s)]. *)
Definition risk_gate (today : Z) (rm : option Risk.RiskManager) (s : Signal)
    : result bool * option Risk.RiskManager :=
  match rm with
  | None => (Ret true, None)
  | Some r =>
      let '(b, r') := Risk.validate_entry_signal today r s in (b, Some r')
  end.

(** The candidate the AND branch settles on before the risk gate: present
    when every active condition gave a signal and there is an active
    condition; it is the highest-confidence signal, tagged ["AND"]. *)
Definition and_candidate (conds : list Condition) (signals : list Signal)
    : option Signal :=
  let active_conditions := List.filter is_active conds in
  if Nat.eqb (length signals) (length active_conditions)
     && Nat.ltb 0 (length active_conditions)
  then option_map (set_meta "combination" (MStr "AND"))
                  (max_by_confidence signals)
  else None.

(** The OR branch: every signal is tagged and goes through the risk gate on
    its own.  An exception of the gate ends the loop. *)
Fixpoint or_signals (today : Z) (rm : option Risk.RiskManager)
    (signals : list Signal) : result (list Signal) * option Risk.RiskManager :=
  match signals with
  | [] => (Ret [], rm)
  | s :: rest =>
      let s := set_meta "combination" (MStr "OR") s in
      match risk_gate today rm s with
      | (Raise e, rm) => (Raise e, rm)
      | (Ret ok, rm) =>
          match or_signals today rm rest with
          | (Raise e, rm) => (Raise e, rm)
          | (Ret l, rm) => (Ret (if ok then s :: l else l), rm)
          end
      end
  end.

(** The body of the per-exchange loop of [_evaluate_entry_conditions]: the
    signals appended to [all_signals] for this exchange. *)
Definition entry_signals_for (today : Z) (self : TradingEngine)
    (rm : option Risk.RiskManager) (exchange_name : string) (md : MarketData)
    : result (list Signal) * option Risk.RiskManager :=
  let signals := condition_signals exchange_name md (entry_conditions self) in
  if String.eqb (combination_mode self) "AND" then
    match and_candidate (entry_conditions self) signals with
    | Some best_signal =>
        match risk_gate today rm best_signal with
        | (Raise e, rm) => (Raise e, rm)
        | (Ret ok, rm) => (Ret (if ok then [best_signal] else []), rm)
        end
    | None => (Ret [], rm)
    end
  else or_signals today rm signals.

Fixpoint entry_loop (today : Z) (self : TradingEngine)
    (rm : option Risk.RiskManager) (cache : list (string * MarketData))
    : result (list Signal) * option Risk.RiskManager :=
  match cache with
  | [] => (Ret [], rm)
  | (exchange_name, md) :: rest =>
      match entry_signals_for today self rm exchange_name md with
      | (Raise e, rm) => (Raise e, rm)
      | (Ret here, rm) =>
          match entry_loop today self rm rest with
          | (Raise e, rm) => (Raise e, rm)
          | (Ret later, rm) => (Ret (here ++ later)%list, rm)
          end
      end
  end.

(** [TradingEngine._evaluate_entry_conditions]. *)
Definition _evaluate_entry_conditions (today : Z) (self : TradingEngine)
    : result (list Signal) * option Risk.RiskManager :=
  match entry_conditions self with
  | [] => (Ret [], risk_manager self)
  | _ => entry_loop today self (risk_manager self) (market_data_cache self)
  end.

(** [dict.get(key)] on an association list. *)
Fixpoint dict_get {A : Type} (key : string) (d : list (string * A))
    : option A :=
  match d with
  | [] => None
  | (k, v) :: rest => if String.eqb k key then Some v else dict_get key rest
  end.

(** The innermost loop of [_evaluate_exit_conditions]: for one position every
    active exit condition is evaluated and every signal is appended. *)
Definition exit_signals_for (exchange_name : string) (md : MarketData)
    (position : Position) (conds : list Condition) : list Signal :=
  flat_map
    (fun c =>
       if is_active c then
         match evaluate c md (Some position) with
         | Ret (Some s) =>
             [set_meta "position_id" (MStr (pos_symbol position))
                (set_meta "exchange" (MStr exchange_name) s)]
         | _ => []
         end
       else []) conds.

(** [TradingEngine._evaluate_exit_conditions]. *)
Definition _evaluate_exit_conditions (self : TradingEngine) : list Signal :=
  flat_map
    (fun entry : string * list Position =>
       let '(exchange_name, positions) := entry in
       match dict_get exchange_name (market_data_cache self) with
       | None => []
       | Some md =>
           flat_map
             (fun position =>
                exit_signals_for exchange_name md position
                  (exit_conditions self))
             positions
       end)
    (positions self).

(** A call of the order executor. *)
Inductive Execution : Type :=
| ExecuteExit (s : Signal)
| ExecuteEntry (s : Signal).

(** [TradingEngine._execute_signals]: the executor calls it makes, in
    order. *)
Definition _execute_signals (entry_signals exit_signals : list Signal)
    : list Execution :=
  (map ExecuteExit exit_signals ++ map ExecuteEntry entry_signals)%list.

(** What one tick produced: the signals of step 2 and step 3 ([None] when
    the step was skipped and the local variable is unbound) and the executor
    calls of step 4. *)
Record Tick : Type := mkTick {
  entry_signals : option (list Signal);
  exit_signals : option (list Signal);
  executed : list Execution
}.

(** [TradingEngine._run_trading_cycle] after the market data has been
    collected into [market_data_cache].  An exception of the risk gate
    leaves the cycle (it is logged and raised again). *)
Definition _run_trading_cycle (today : Z) (self : TradingEngine)
    : result Tick * option Risk.RiskManager :=
  if negb (is_trading_enabled self) then
    (Ret (mkTick None None []), risk_manager self)
  else
    let '(entry, rm) :=
      match entry_conditions self with
      | [] => (Ret None, risk_manager self)
      | _ =>
          match _evaluate_entry_conditions today self with
          | (Ret l, rm) => (Ret (Some l), rm)
          | (Raise e, rm) => (Raise e, rm)
          end
      end in
    match entry with
    | Raise e => (Raise e, rm)
    | Ret entry_signals =>
        let exit_signals :=
          match exit_conditions self with
          | [] => None
          | _ => Some (_evaluate_exit_conditions self)
          end in
        let executed :=
          match entry_signals with
          | Some (e :: es) => _execute_signals (e :: es) []
          | _ =>
              match exit_signals with
              | Some (x :: xs) => _execute_signals [] (x :: xs)
              | _ => []
              end
          end in
        (Ret (mkTick entry_signals exit_signals executed), rm)
    end.

(** What the outside world hands to one tick: the date on the wall clock,
    the market data [_collect_market_data] stores in the cache, and the
    positions the update loop last stored. *)
Record CycleInput : Type := mkCycleInput {
  today : Z;
  collected : list (string * MarketData);
  held : list (string * list Position)
}.

Definition with_input (self : TradingEngine) (i : CycleInput)
    : TradingEngine :=
  mkEngine (is_trading_enabled self) (entry_conditions self)
    (exit_conditions self) (risk_manager self) (combination_mode self)
    (held i) (collected i).

Definition with_risk_manager (self : TradingEngine)
    (rm : option Risk.RiskManager) : TradingEngine :=
  mkEngine (is_trading_enabled self) (entry_conditions self)
    (exit_conditions self) rm (combination_mode self)
    (positions self) (market_data_cache self).


End Engine.

(** ** core/models.py: market data queries, orders, accounts, statistics *)
Module Ledger.
Import Models.

(** [MarketData.get_latest_close]. *)
Definition get_latest_close (m : MarketData) : Q :=
  default (md_current_price m) (last (close_prices m)).


(** [MarketData.get_price_channel]: the pair is the dict
    [{"upper": _, "lower": _}]. *)
Definition get_price_channel (m : MarketData) (period : Z)
    : result (option (Q * Q)) :=
  if (Z.of_nat (length (high_prices m)) <? period)
     || (Z.of_nat (length (low_prices m)) <? period)
  then Ret None
  else
    upper ← pymax_list (slice_from (- period) (high_prices m));
    lower ← pymin_list (slice_from (- period) (low_prices m));
    Ret (Some (upper, lower)).

(** [Position.update_current_price]. *)
Definition update_current_price (p : Position) (new_price : Q) : Position :=
  let p' := mkPosition (pos_symbol p) (side p) (size p) (entry_price p)
              new_price (unrealized_pnl p) (realized_pnl p) (leverage p)
              (margin p) (pos_timestamp p) in
  mkPosition (pos_symbol p') (side p') (size p') (entry_price p')
    (current_price p') (calculate_pnl p') (realized_pnl p') (leverage p')
    (margin p') (pos_timestamp p').

Inductive OrderType : Type := MARKET | LIMIT | STOP | STOP_MARKET.

Definition OrderType_eqb (a b : OrderType) : bool :=
  match a, b with
  | MARKET, MARKET | LIMIT, LIMIT | STOP, STOP
  | STOP_MARKET, STOP_MARKET => true
  | _, _ => false
  end.

Record Order : Type := mkOrder {
  o_symbol : string;
  o_side : string;
  quantity : Q;
  order_type : OrderType;
  o_price : option Q;
  stop_price : option Q;
  time_in_force : string;
  client_order_id : option string;
  reduce_only : bool;
  close_position : bool
}.

(** [Order(symbol, side, quantity, order_type, price)] with the other fields
    at their defaults, for an [order_type] that is a member of [OrderType]:
    the generated [__init__] followed by [__post_init__]. *)
Definition Order_new (sym sd : string) (qty : Q) (ot : OrderType)
    (p : option Q) : result Order :=
  if String.eqb sym "" then Raise ValueError
  else if negb (String.eqb sd "BUY" || String.eqb sd "SELL")
  then Raise ValueError
  else if Qleb qty 0 then Raise ValueError
  else Ret (mkOrder sym sd qty ot p None "GTC" None false false).

(** [Signal.to_order]. *)
Definition to_order (s : Signal) (qty : Q) (ot : OrderType) : result Order :=
  Order_new (symbol s) (SignalType_value (type s)) qty ot
    (if OrderType_eqb ot LIMIT then Some (price s) else None).

(** [Order.requires_price]. *)
Definition requires_price (o : Order) : bool :=
  OrderType_eqb (order_type o) LIMIT || OrderType_eqb (order_type o) STOP.

(** [OrderResult.get_fill_percentage], of the two fields it reads. *)
Definition get_fill_percentage (quantity filled_quantity : Q) : result Q :=
  if Qeqb quantity 0 then Ret 0%Q
  else r ← pydiv filled_quantity quantity; Ret (r * 100)%Q.

Record AccountInfo : Type := mkAccountInfo {
  balance : Q;
  available_balance : Q;
  used_margin : Q;
  free_margin : Q;
  total_pnl : Q;
  acc_positions : list Position
}.

(** [AccountInfo(balance, available_balance, used_margin, free_margin,
    total_pnl, positions)]: [__post_init__] fills a zero [free_margin]. *)
Definition AccountInfo_new (bal avail used free pnl : Q)
    (positions : list Position) : AccountInfo :=
  mkAccountInfo bal avail used
    (if Qeqb free 0 then (avail - used)%Q else free) pnl positions.

(** [AccountInfo.can_open_position]. *)
Definition can_open_position (a : AccountInfo) (required_margin : Q) : bool :=
  Qgeb (free_margin a) required_margin.

(** [AccountInfo.get_margin_ratio]. *)
Definition get_margin_ratio (a : AccountInfo) : result Q :=
  if Qeqb (balance a) 0 then Ret 0%Q
  else r ← pydiv (used_margin a) (balance a); Ret (r * 100)%Q.

(** [AccountInfo.get_total_position_value]. *)
Definition get_total_position_value (a : AccountInfo) : Q :=
  pysum (map (fun pos => (current_price pos * size pos)%Q) (acc_positions a)).

Record TradingStats : Type := mkTradingStats {
  total_trades : Z;
  winning_trades : Z;
  losing_trades : Z;
  stats_total_pnl : Q;
  total_commission : Q;
  win_rate : Q
}.

(** [TradingStats()] with every counter at its default. *)
Definition TradingStats_init : TradingStats :=
  mkTradingStats 0 0 0 0 0 0.

(** [TradingStats.update_stats]. *)
Definition update_stats (st : TradingStats) (pnl commission : Q)
    : result TradingStats :=
  let total := total_trades st + 1 in
  let won := if Qgtb pnl 0 then winning_trades st + 1 else winning_trades st in
  let lost := if Qgtb pnl 0 then losing_trades st else losing_trades st + 1 in
  rate ← (if 0 <? total
          then r ← pydiv (inject_Z won) (inject_Z total); Ret (r * 100)%Q
          else Ret (win_rate st));
  Ret (mkTradingStats total won lost (stats_total_pnl st + pnl)
         (total_commission st + commission) rate).

(** A run of [update_stats] calls, one per (pnl, commission) pair. *)
Fixpoint update_all (st : TradingStats) (trades : list (Q * Q))
    : result TradingStats :=
  match trades with
  | [] => Ret st
  | (pnl, commission) :: rest =>
      st' ← update_stats st pnl commission;
      update_all st' rest
  end.

(** [TradingStats.get_average_pnl]. *)
Definition get_average_pnl (st : TradingStats) : result Q :=
  if total_trades st =? 0 then Ret 0%Q
  else pydiv (stats_total_pnl st) (inject_Z (total_trades st)).

End Ledger.

(** ** conditions/base_condition.py: maintenance of the condition lists *)
Module ManagerOps.
Import Models BaseCondition.

(** [ConditionManager.__init__]. *)
Definition ConditionManager_init : ConditionManager :=
  mkConditionManager [] [] "OR".

(** [ConditionManager.add_entry_condition] and [add_exit_condition]. *)
Definition add_entry_condition (self : ConditionManager) (c : Condition)
    : ConditionManager :=
  mkConditionManager (entry_conditions self ++ [c])%list
    (exit_conditions self) (combination_mode self).

Definition add_exit_condition (self : ConditionManager) (c : Condition)
    : ConditionManager :=
  mkConditionManager (entry_conditions self)
    (exit_conditions self ++ [c])%list (combination_mode self).

(** The loop shared by [remove_entry_condition] and
    [remove_exit_condition]: the first condition of that name is deleted and
    [True] returned, or the list is left alone and [False] returned. *)
Fixpoint remove_by_name (condition_name : string) (l : list Condition)
    : bool * list Condition :=
  match l with
  | [] => (false, [])
  | c :: rest =>
      if String.eqb (name c) condition_name then (true, rest)
      else
        let '(found, rest') := remove_by_name condition_name rest in
        (found, c :: rest')
  end.

(** [ConditionManager.remove_entry_condition]. *)
Definition remove_entry_condition (self : ConditionManager)
    (condition_name : string) : bool * ConditionManager :=
  let '(found, l) := remove_by_name condition_name (entry_conditions self) in
  (found,
   mkConditionManager l (exit_conditions self) (combination_mode self)).

(** [ConditionManager.remove_exit_condition]. *)
Definition remove_exit_condition (self : ConditionManager)
    (condition_name : string) : bool * ConditionManager :=
  let '(found, l) := remove_by_name condition_name (exit_conditions self) in
  (found,
   mkConditionManager (entry_conditions self) l (combination_mode self)).

(** [ConditionManager.set_combination_mode]. *)
Definition set_combination_mode (self : ConditionManager) (mode : string)
    : ConditionManager :=
  if String.eqb mode "AND" || String.eqb mode "OR"
  then mkConditionManager (entry_conditions self) (exit_conditions self) mode
  else self.

(** [BaseCondition.enable] and [BaseCondition.disable]. *)
Definition enable (c : Condition) : Condition :=
  mkCondition (name c) true (evaluate c).
Definition disable (c : Condition) : Condition :=
  mkCondition (name c) false (evaluate c).

(** [ConditionManager.enable_all_conditions] and
    [disable_all_conditions]. *)
Definition enable_all_conditions (self : ConditionManager)
    : ConditionManager :=
  mkConditionManager (map enable (entry_conditions self))
    (map enable (exit_conditions self)) (combination_mode self).

Definition disable_all_conditions (self : ConditionManager)
    : ConditionManager :=
  mkConditionManager (map disable (entry_conditions self))
    (map disable (exit_conditions self)) (combination_mode self).

(** What a caller may do to a manager between two evaluations. *)
Inductive ManagerCall : Type :=
| AddEntry (c : Condition)
| AddExit (c : Condition)
| RemoveEntry (condition_name : string)
| RemoveExit (condition_name : string)
| SetMode (mode : string)
| EnableAll
| DisableAll.

Definition apply_call (self : ConditionManager) (call : ManagerCall)
    : ConditionManager :=
  match call with
  | AddEntry c => add_entry_condition self c
  | AddExit c => add_exit_condition self c
  | RemoveEntry n => snd (remove_entry_condition self n)
  | RemoveExit n => snd (remove_exit_condition self n)
  | SetMode m => set_combination_mode self m
  | EnableAll => enable_all_conditions self
  | DisableAll => disable_all_conditions self
  end.

End ManagerOps.

(** ** risk/risk_manager.py: sizing and price levels *)
Module RiskTools.
Import Models Risk.

(** [RiskManager.calculate_position_size]. *)
Definition calculate_position_size (self : RiskManager)
    (account_balance current_price : Q) : result Q :=
  let position_value := (account_balance * (max_position_size self / 100))%Q in
  let leveraged_value := (position_value * inject_Z (max_leverage self))%Q in
  pydiv leveraged_value current_price.

(** What a call that indexes a list gives: the [IndexError] of an index out
    of range, or the value returned. *)
Inductive Indexed (A : Type) : Type :=
| IndexError
| Returned (a : A).
Arguments IndexError {A}.
Arguments Returned {A} a.

(** [l[i]] for an integer [i]: a negative index counts from the end. *)
Definition py_index {A : Type} (l : list A) (i : Z) : option A :=
  let n := Z.of_nat (length l) in
  let j := if i <? 0 then i + n else i in
  if (j <? 0) || (n <=? j) then None else nth_error l (Z.to_nat j).

(** [RiskManager.get_stop_loss_price], of the fields [auto_stop] and
    [stop_levels] it reads; a level is a triple whose second and third
    components are the profit and the stop percentage. *)
Definition get_stop_loss_price {A : Type} (auto_stop : bool)
    (stop_levels : list (A * Q * Q)) (entry_price : Q) (side : string)
    (level : Z) : Indexed (option Q) :=
  if negb auto_stop || (Z.of_nat (length stop_levels) <? level)
  then Returned None
  else
    match py_index stop_levels (level - 1) with
    | None => IndexError
    | Some (_, _, stop_percent) =>
        if String.eqb side "LONG"
        then Returned (Some (entry_price * (1 - stop_percent / 100))%Q)
        else Returned (Some (entry_price * (1 + stop_percent / 100))%Q)
    end.

(** [RiskManager.get_take_profit_price]. *)
Definition get_take_profit_price {A : Type} (auto_stop : bool)
    (stop_levels : list (A * Q * Q)) (entry_price : Q) (side : string)
    (level : Z) : Indexed (option Q) :=
  if negb auto_stop || (Z.of_nat (length stop_levels) <? level)
  then Returned None
  else
    match py_index stop_levels (level - 1) with
    | None => IndexError
    | Some (_, profit_percent, _) =>
        if String.eqb side "LONG"
        then Returned (Some (entry_price * (1 + profit_percent / 100))%Q)
        else Returned (Some (entry_price * (1 - profit_percent / 100))%Q)
    end.

End RiskTools.

(** ** conditions/exit_condition_factory.py: the tick rules *)
Module TickRules.
Import Models.

(** The dict a tick rule returns. *)
Inductive Action : Type :=
| CloseAfterLowerTouch
| CloseAfterUpperTouch
| AddPosition (size : Q).

Record PCBreakevenCondition : Type := mkPCBreakeven {
  long_ticks : Q;
  short_ticks : Q;
  pc_touched : bool;
  touch_price : option Q;
  tick_size : Q
}.

(** [PCBreakevenCondition.__init__] for the configured tick counts. *)
Definition PCBreakevenCondition_init (long_ticks short_ticks : Q)
    : PCBreakevenCondition :=
  mkPCBreakeven long_ticks short_ticks false None (1 # 100).

Definition touch (self : PCBreakevenCondition) (line : Q)
    : PCBreakevenCondition :=
  mkPCBreakeven (long_ticks self) (short_ticks self) true (Some line)
    (tick_size self).

Definition release (self : PCBreakevenCondition) : PCBreakevenCondition :=
  mkPCBreakeven (long_ticks self) (short_ticks self) false None
    (tick_size self).

(** Truth value of [self.touch_price]: [None] and [0.0] are false. *)
Definition truthy (p : option Q) : option Q :=
  match p with
  | Some v => if Qeqb v 0 then None else Some v
  | None => None
  end.

(** [PCBreakevenCondition.evaluate]: the action returned (or the exception)
    and the condition after the call. *)
Definition pc_breakeven_evaluate (self : PCBreakevenCondition)
    (md : MarketData) (position : option Position)
    : result (option Action * PCBreakevenCondition) :=
  match position with
  | None => Ret (None, self)
  | Some pos =>
      let current := md_current_price md in
      if Z.of_nat (length (high_prices md)) <? 20 then Ret (None, self)
      else
        pc_upper ← pymax_list (slice_from (-20) (high_prices md));
        pc_lower ← pymin_list (slice_from (-20) (low_prices md));
        match side pos with
        | SideOf LONG =>
            let self :=
              if negb (pc_touched self) && Qleb current pc_lower
              then touch self pc_lower else self in
            match (if pc_touched self then truthy (touch_price self)
                   else None) with
            | Some touched_at =>
                tick_move ← pydiv (touched_at - current) (tick_size self);
                if Qgeb tick_move (long_ticks self)
                then Ret (Some CloseAfterLowerTouch, release self)
                else Ret (None, self)
            | None => Ret (None, self)
            end
        | SideOf SHORT =>
            let self :=
              if negb (pc_touched self) && Qgeb current pc_upper
              then touch self pc_upper else self in
            match (if pc_touched self then truthy (touch_price self)
                   else None) with
            | Some touched_at =>
                tick_move ← pydiv (current - touched_at) (tick_size self);
                if Qgeb tick_move (short_ticks self)
                then Ret (Some CloseAfterUpperTouch, release self)
                else Ret (None, self)
            | None => Ret (None, self)
            end
        | SideForeign => Ret (None, self)
        end
  end.

Record TickAdditionalEntryCondition : Type := mkTickAdditional {
  up_ticks : Q;
  down_ticks : Q;
  ratio : Q;
  add_tick_size : Q;
  additional_entries : Z;
  max_additional_entries : Z
}.

(** [TickAdditionalEntryCondition.__init__]. *)
Definition TickAdditionalEntryCondition_init (up_ticks down_ticks ratio : Q)
    : TickAdditionalEntryCondition :=
  mkTickAdditional up_ticks down_ticks ratio (1 # 100) 0 3.

Definition count_entry (self : TickAdditionalEntryCondition)
    : TickAdditionalEntryCondition :=
  mkTickAdditional (up_ticks self) (down_ticks self) (ratio self)
    (add_tick_size self) (additional_entries self + 1)
    (max_additional_entries self).

(** [TickAdditionalEntryCondition.evaluate]. *)
Definition tick_additional_evaluate (self : TickAdditionalEntryCondition)
    (md : MarketData) (position : option Position)
    : result (option Action * TickAdditionalEntryCondition) :=
  let current := md_current_price md in
  match position with
  | Some pos =>
      if additional_entries self <? max_additional_entries self then
        match side pos with
        | SideOf LONG =>
            tick_move ← pydiv (entry_price pos - current) (add_tick_size self);
            if Qgeb tick_move (down_ticks self)
            then Ret (Some (AddPosition (size pos * (ratio self / 100))),
                      count_entry self)
            else Ret (None, self)
        | SideOf SHORT =>
            tick_move ← pydiv (current - entry_price pos) (add_tick_size self);
            if Qgeb tick_move (up_ticks self)
            then Ret (Some (AddPosition (size pos * (ratio self / 100))),
                      count_entry self)
            else Ret (None, self)
        | SideForeign => Ret (None, self)
        end
      else Ret (None, self)
  | None => Ret (None, self)
  end.

(** A run of evaluations, one per tick: the actions returned, until a call
    raises. *)
Fixpoint tick_additional_run (self : TickAdditionalEntryCondition)
    (ticks : list (MarketData * option Position)) : list (option Action) :=
  match ticks with
  | [] => []
  | (md, position) :: rest =>
      match tick_additional_evaluate self md position with
      | Ret (a, self') => a :: tick_additional_run self' rest
      | Raise _ => []
      end
  end.

End TickRules.

(** ** conditions/condition_factory.py: the moving-average cross *)
Module Crossing.
Import Models.

Section Formatting.

(** The text of a float formatted with two decimals ([f"{x:.2f}"]), which
    only goes into the [reason] of a signal. *)
Variable two_decimals : Q -> string.

Record MACondition : Type := mkMACondition {
  short_period : Z;
  long_period : Z;
  condition_type : string
}.

(** [MACondition.evaluate]; the method has no [try], so an exception of the
    arithmetic or of the [Signal] constructor leaves it. *)
Definition evaluate (now : Z) (self : MACondition) (md : MarketData)
    : result (option Signal) :=
  if Z.of_nat (length (close_prices md)) <? long_period self then Ret None
  else
    short_ma ← pydiv (pysum (slice_from (- short_period self)
                               (close_prices md)))
                     (inject_Z (short_period self));
    long_ma ← pydiv (pysum (slice_from (- long_period self)
                              (close_prices md)))
                    (inject_Z (long_period self));
    let current_price := md_current_price md in
    r ← pydiv (short_ma - long_ma) long_ma;
    let cross_ratio := (r * 100)%Q in
    if String.eqb (condition_type self) "종가기준 상향돌파" then
      if Qgtb short_ma long_ma && Qgtb cross_ratio (1 # 10) then
        s ← Signal_new (AMember BUY) (md_symbol md) current_price
              (pymin (pyabs cross_ratio / 10) 1) "MA Cross" now
              (<["reason" :=
                   MStr ("MA 상향돌파 (" ++ two_decimals cross_ratio ++ "%)")]>
                 ∅);
        Ret (Some s)
      else Ret None
    else if String.eqb (condition_type self) "종가기준 하향돌파" then
      if Qltb short_ma long_ma && Qltb cross_ratio (- (1 # 10)) then
        s ← Signal_new (AMember SELL) (md_symbol md) current_price
              (pymin (pyabs cross_ratio / 10) 1) "MA Cross" now
              (<["reason" :=
                   MStr ("MA 하향돌파 (" ++ two_decimals cross_ratio ++ "%)")]>
                 ∅);
        Ret (Some s)
      else Ret None
    else Ret None.

End Formatting.

End Crossing.

(** * Vocabulary of the properties, and sample inputs *)

(** ** The PCS ladder *)
Module PCSTerms.
Import Models PCS.



(** What [evaluate] answers once a step is chosen. *)
Definition exit_signal_of (now : Z) (self : PCSSystemCondition)
    (md : MarketData) (pos : Position) (pnl : Q) (chosen : Level)
    (reason : string) (conf : Q) : Signal :=
  mkSignal (if is_long pos then SELL else BUY) (md_symbol md)
    (md_current_price md) conf (name self) now
    (<["pcs_step" := MInt (step chosen)]>
    (<["pcs_tp" := MNum (tp chosen)]>
    (<["pcs_sl" := MNum (sl chosen)]>
    (<["reason" := MStr reason]>
    (<["pnl_pct" := MNum pnl]> ∅))))).

(** The ladder of the specification's examples: steps 1 to 3 of the default
    table, all active. *)
Definition example_ladder : PCSSystemCondition :=
  mkPCS "PCS System" true [1; 2; 3] true
    [ mkLevel 1 2 (-1) true; mkLevel 2 4 (-2) true; mkLevel 3 6 (-3) true ].

Definition example_market (p : Q) : MarketData :=
  mkMarketData "BTCUSDT" p [p] [p] [p] 0 0.

Definition example_long (cur : Q) : Position :=
  mkPosition "BTCUSDT" (SideOf LONG) 1 100 cur 0 0 1 0 0.

End PCSTerms.

(** ** Combination of entry signals *)
Module CombinerTerms.
Import Models BaseCondition.




End CombinerTerms.

(** ** Agreeing entry conditions *)
Module EngineTerms.
Import Models BaseCondition Engine.
Import CombinerTerms.




End EngineTerms.

(** ** One tick of the engine *)
Module TickTerms.
Import Models BaseCondition Engine.

(** A condition that answers with the given signal whatever it is shown. *)
Definition firing (nm : string) (s : Signal) : Condition :=
  mkCondition nm true (fun _ _ => Ret (Some s)).

Definition sample_market : MarketData :=
  mkMarketData "BTCUSDT" 100 [100%Q] [100%Q] [100%Q] 0 0.

Definition sample_signal (ty : SignalType) (conf : Q) (src : string)
    : Signal :=
  mkSignal ty "BTCUSDT" 100 conf src 0 ∅.

Definition sample_position : Position :=
  mkPosition "BTCUSDT" (SideOf LONG) 1 100 100 0 0 1 0 0.

(** The tags the engine adds to an entry signal. *)
Definition tagged_entry (exchange_name cond combination : string)
    (s : Signal) : Signal :=
  set_meta "combination" (MStr combination)
    (set_meta "condition" (MStr cond)
       (set_meta "exchange" (MStr exchange_name) s)).

(** The tags the engine adds to an exit signal. *)
Definition tagged_exit (exchange_name position_id : string) (s : Signal)
    : Signal :=
  set_meta "position_id" (MStr position_id)
    (set_meta "exchange" (MStr exchange_name) s).


(** A tick in OR mode with one entry condition and one exit condition that
    both give a signal for the held position. *)
Definition both_engine : TradingEngine :=
  mkEngine true
    [ firing "A" (sample_signal BUY (8 # 10) "A") ]
    [ firing "X" (sample_signal SELL (9 # 10) "X") ]
    None "OR"
    [("binance", [sample_position])] [("binance", sample_market)].

(** The condition gives no signal: it answers [None] or raises. *)
Definition silent (md : MarketData) (position : Position) (c : Condition)
    : Prop :=
  match evaluate c md (Some position) with
  | Ret (Some _) => False
  | _ => True
  end.

(** Two exit conditions that both give a signal for the held position. *)
Definition two_exits_engine : TradingEngine :=
  mkEngine true []
    [ firing "X1" (sample_signal SELL (9 # 10) "X1");
      firing "X2" (sample_signal SELL (8 # 10) "X2") ]
    None "OR"
    [("binance", [sample_position])] [("binance", sample_market)].

End TickTerms.

(** ** The risk gate *)
Module RiskTerms.
Import Models Risk.

(** None of the three attributes the loss and size checks read exists on the
    object. *)
Definition lacks_balance_attributes (self : RiskManager) : Prop :=
  account_balance self = None /\ daily_pnl self = None
  /\ daily_loss_limit self = None.

Definition default_config : RiskConfig :=
  mkRiskConfig None None None None None.

Definition some_position : Position :=
  mkPosition "BTCUSDT" (SideOf LONG) 1 100 100 0 0 1 0 0.

Definition some_signal : Signal :=
  mkSignal BUY "BTCUSDT" 100 (8 # 10) "A" 0 ∅.

(** [n] positions opened and closed again. *)
Fixpoint after_trades (n : nat) (self : RiskManager) : RiskManager :=
  match n with
  | O => self
  | S k =>
      after_trades k
        (update_position_closed
           (update_position_opened self some_position) some_position 0)
  end.

(** A manager with the default limits, created on day 0, after fifty
    trades. *)
Definition manager_at_cap : RiskManager :=
  after_trades 50 (RiskManager_init default_config 0).

End RiskTerms.

(** ** Price-channel breakout *)
Module PriceChannelTerms.
Import Models PriceChannel.

(** What a signal of [_evaluate_breakout] says about the price. *)
Definition upper_fired (self : PriceChannelCondition) (md : MarketData)
    (ch : Channel) (s : Signal) : Prop :=
  upper_breakout self <> "none"
  /\ (upper ch * (1 + breakout_threshold self) < md_current_price md)%Q
  /\ confidence s
     = _calculate_breakout_confidence (md_current_price md) (upper ch) "upper"
  /\ metadata s !! "breakout_type" = Some (MStr "upper").

Definition lower_fired (self : PriceChannelCondition) (md : MarketData)
    (ch : Channel) (s : Signal) : Prop :=
  lower_breakout self <> "none"
  /\ (md_current_price md < lower ch * (1 - breakout_threshold self))%Q
  /\ confidence s
     = _calculate_breakout_confidence (md_current_price md) (lower ch) "lower"
  /\ metadata s !! "breakout_type" = Some (MStr "lower").

(** The confidence of a breakout as a function of the percentage by which
    the price is beyond the line. *)
Definition confidence_of_percentage (pct : Q) : Q :=
  pymin 1 (pymax (3 # 10) (pymin (pct / 2) (8 # 10))).

(** A condition watching both lines of a 10-candle channel, with the default
    breakout threshold of 0.1 % and a confidence threshold that lets every
    breakout through. *)
Definition watching_both : PriceChannelCondition :=
  PriceChannelCondition_init true (3 # 10) 10 "buy" "sell" (1 # 1000).

(** Ten candles between 90 and 100, and the given current price. *)
Definition ranging_market (p : Q) : MarketData :=
  mkMarketData "BTCUSDT" p (repeat 95%Q 10) (repeat 100%Q 10)
    (repeat 90%Q 10) 0 0.

End PriceChannelTerms.

(** Counting the trades of a statistics run. *)
Module StatsTerms.
Import Models Ledger.

(** The number of trades with a strictly positive PnL. *)
Definition wins (trades : list (Q * Q)) : Z :=
  Z.of_nat (length (List.filter (fun t => Qgtb (fst t) 0) trades)).

End StatsTerms.

(** Conditions of a manager by name, and conditions that leave the exit to
    the next one. *)
Module ManagerTerms.
Import Models BaseCondition ManagerOps.

(** How often a name occurs in a list of conditions. *)
Definition occurrences (condition_name : string) (l : list Condition) : nat :=
  length (List.filter (fun c => String.eqb (name c) condition_name) l).

(** The condition cannot decide the exit: it is disabled, or it answers
    [None], or it raises. *)
Definition passed_over (md : MarketData) (position : Position)
    (c : Condition) : Prop :=
  is_active c = false
  \/ match evaluate c md (Some position) with
     | Ret (Some _) => False
     | _ => True
     end.

End ManagerTerms.

(** The ladder a missing configuration gives. *)
Module LadderTerms.
Import Models PCS.

(** The twelve rows of [PCS_DEFAULT_LEVELS], all enabled. *)
Definition default_levels : list Level :=
  map (fun lv => mkLevel (fst (fst lv)) (snd (fst lv)) (snd lv) true)
      PCS_DEFAULT_LEVELS.

End LadderTerms.

(** Counting the additions of a tick rule. *)
Module TickRulesTerms.
Import Models TickRules.

(** The number of [add_position] answers in a run. *)
Definition additions (answers : list (option Action)) : nat :=
  length (List.filter
            (fun a => match a with Some (AddPosition _) => true | _ => false end)
            answers).

End TickRulesTerms.

(** * Properties *)

(** ** Comparisons on rationals *)

Lemma Qleb_le (x y : Q) : Qleb x y = true <-> (x <= y)%Q.
Proof. unfold Qleb. apply Qle_bool_iff. Qed.

Lemma Qltb_lt (x y : Q) : Qltb x y = true <-> (x < y)%Q.
Proof.
  unfold Qltb. rewrite negb_true_iff. split.
  - intros H. apply Qnot_le_lt. intros Hle.
    apply Qle_bool_iff in Hle. congruence.
  - intros H. destruct (Qle_bool y x) eqn:E; [|reflexivity].
    apply Qle_bool_iff in E. exfalso. apply (Qlt_not_le _ _ H E).
Qed.

Lemma Qleb_false (x y : Q) : Qleb x y = false <-> (y < x)%Q.
Proof.
  rewrite <- Qltb_lt. unfold Qltb, Qleb.
  destruct (Qle_bool x y); simpl; split; congruence.
Qed.

Lemma Qltb_false (x y : Q) : Qltb x y = false <-> (y <= x)%Q.
Proof.
  rewrite <- Qleb_le. unfold Qltb, Qleb.
  destruct (Qle_bool y x); simpl; split; congruence.
Qed.

Lemma Qeqb_eq (x y : Q) : Qeqb x y = true <-> (x == y)%Q.
Proof. unfold Qeqb. apply Qeq_bool_iff. Qed.

Lemma Qeqb_false (x y : Q) : Qeqb x y = false <-> ~ (x == y)%Q.
Proof.
  rewrite <- Qeqb_eq. destruct (Qeqb x y); split; congruence.
Qed.

Lemma string_eqb_empty (s : string) : String.eqb s "" = false <-> s <> "".
Proof.
  destruct (String.eqb_spec s ""); split; congruence.
Qed.

(** ** core/models.py: validation of [Signal] and [Position] *)
Module ModelsSpec.
Import Models.

Lemma Signal_new_ok ty sym p c src ts meta :
  names_signal_type ty -> sym <> "" -> (0 < p)%Q -> (0 <= c <= 1)%Q ->
  exists t, Signal_new ty sym p c src ts meta
            = Ret (mkSignal t sym p c src ts meta).
Proof.
  intros Hty Hsym Hp [Hc0 Hc1]. unfold Signal_new.
  assert (Ht : exists t, match ty with
                         | AMember t => Ret t
                         | AStr s => SignalType_of s
                         | AOther => Raise ValueError
                         end = Ret t).
  { destruct ty as [t|s|]; simpl in Hty.
    - eauto.
    - destruct Hty as [-> | ->]; [exists BUY | exists SELL]; reflexivity.
    - contradiction. }
  destruct Ht as [t ->]. exists t. cbn.
  apply string_eqb_empty in Hsym. rewrite Hsym.
  apply Qleb_false in Hp. rewrite Hp.
  apply Qleb_le in Hc0, Hc1. rewrite Hc0, Hc1. reflexivity.
Qed.

Lemma Signal_new_rejects ty sym p c src ts meta :
  (p <= 0)%Q \/ (c < 0)%Q \/ (1 < c)%Q ->
  Signal_new ty sym p c src ts meta = Raise ValueError.
Proof.
  intros H. unfold Signal_new, SignalType_of.
  destruct ty as [t|s|]; cbn; [| |reflexivity].
  2: destruct (String.eqb s "BUY"); [|destruct (String.eqb s "SELL")]; cbn.
  4: reflexivity.
  all: destruct (String.eqb sym ""); [reflexivity|];
    destruct (Qleb p 0) eqn:Ep; [reflexivity|];
    destruct H as [H | [H | H]];
    [ apply Qleb_le in H; congruence
    | apply Qleb_false in H; rewrite H; reflexivity
    | apply Qleb_false in H; rewrite H, andb_false_r; reflexivity ].
Qed.

Lemma Position_new_ok sym sd sz entry cur upnl rpnl lev mg ts :
  acceptable_side sd -> (0 <= sz)%Q -> (0 < entry)%Q -> (0 < cur)%Q ->
  exists s, Position_new sym sd sz entry cur upnl rpnl lev mg ts
            = Ret (mkPosition sym s sz entry cur upnl rpnl lev mg ts).
Proof.
  intros Hsd Hsz He Hc. unfold Position_new.
  assert (Hs : exists s, match sd with
                         | AMember s => Ret (SideOf s)
                         | AStr str => s ← PositionSide_of str; Ret (SideOf s)
                         | AOther => Ret SideForeign
                         end = Ret s).
  { destruct sd as [s|str|]; simpl in Hsd.
    - eauto.
    - destruct Hsd as [-> | ->]; eexists; reflexivity.
    - eauto. }
  destruct Hs as [s ->]. exists s. cbn.
  apply Qltb_false in Hsz. rewrite Hsz.
  apply Qleb_false in He, Hc. rewrite He, Hc. reflexivity.
Qed.

Lemma Position_new_rejects sym sd sz entry cur upnl rpnl lev mg ts :
  (sz < 0)%Q \/ (entry <= 0)%Q \/ (cur <= 0)%Q ->
  Position_new sym sd sz entry cur upnl rpnl lev mg ts = Raise ValueError.
Proof.
  intros H. unfold Position_new, PositionSide_of.
  destruct sd as [s|str|]; cbn.
  2: destruct (String.eqb str "LONG"); [|destruct (String.eqb str "SHORT")];
       cbn.
  4: reflexivity.
  all: destruct (Qltb sz 0) eqn:Es; [reflexivity|];
    destruct (Qleb entry 0) eqn:Ee; [reflexivity|];
    destruct H as [H | [H | H]];
    [ apply Qltb_lt in H; congruence
    | apply Qleb_le in H; congruence
    | apply Qleb_le in H; rewrite H; reflexivity ].
Qed.

(** C9, as amended.  Constructing a [Signal] whose confidence lies outside
    [0,1] or whose price is not strictly positive raises [ValueError], and so
    does constructing a [Position] with a negative size or a non-positive
    entry or current price.  Construction succeeds when these bounds hold
    and, for a [Signal], the symbol is not empty and the type names a
    [SignalType]; for a [Position], a side given as a string names a
    [PositionSide]. *)
Theorem validation_of_signal_and_position :
  forall (ty : EnumArg SignalType) (sd : EnumArg PositionSide)
         (sym src : string) (p c sz entry cur upnl rpnl mg : Q)
         (lev ts : Z) (meta : gmap string MetaVal),
    ((p <= 0)%Q \/ (c < 0)%Q \/ (1 < c)%Q ->
     Signal_new ty sym p c src ts meta = Raise ValueError)
    /\ ((sz < 0)%Q \/ (entry <= 0)%Q \/ (cur <= 0)%Q ->
        Position_new sym sd sz entry cur upnl rpnl lev mg ts
        = Raise ValueError)
    /\ (names_signal_type ty -> sym <> "" -> (0 < p)%Q -> (0 <= c <= 1)%Q ->
        exists t, Signal_new ty sym p c src ts meta
                  = Ret (mkSignal t sym p c src ts meta))
    /\ (acceptable_side sd -> (0 <= sz)%Q -> (0 < entry)%Q -> (0 < cur)%Q ->
        exists s, Position_new sym sd sz entry cur upnl rpnl lev mg ts
                  = Ret (mkPosition sym s sz entry cur upnl rpnl lev mg ts)).
Proof.
  intros. repeat split.
  - apply Signal_new_rejects.
  - apply Position_new_rejects.
  - apply Signal_new_ok.
  - apply Position_new_ok.
Qed.

(** The bounds of C9 alone do not make the construction of a [Signal]
    succeed: with an empty symbol it raises. *)
Lemma signal_with_empty_symbol_raises :
  (0 < 1)%Q /\ (0 <= 1 # 2 <= 1)%Q
  /\ Signal_new (AMember BUY) "" 1 (1 # 2) "test" 0 ∅ = Raise ValueError.
Proof.
  split; [reflexivity|]. split; [split; discriminate|]. reflexivity.
Qed.

(** The amended C9 at a buy signal on BTCUSDT at price 100 with confidence
    0.5. *)
Lemma validation_of_signal_and_position_witness :
  names_signal_type (AMember BUY) /\ "BTCUSDT" <> "" /\ (0 < 100)%Q
  /\ (0 <= 1 # 2 <= 1)%Q
  /\ exists t, Signal_new (AMember BUY) "BTCUSDT" 100 (1 # 2) "MA" 0 ∅
               = Ret (mkSignal t "BTCUSDT" 100 (1 # 2) "MA" 0 ∅).
Proof.
  assert (Hc : (0 <= 1 # 2 <= 1)%Q) by (split; discriminate).
  split; [exact I|]. split; [discriminate|]. split; [reflexivity|].
  split; [exact Hc|].
  apply (validation_of_signal_and_position (AMember BUY) (AMember LONG)
           "BTCUSDT" "MA" 100 (1 # 2) 1 100 100 0 0 0 1 0 ∅).
  - exact I.
  - discriminate.
  - reflexivity.
  - exact Hc.
Defined.

End ModelsSpec.

(** ** The PCS ladder *)
Module PCSSpec.
Import Models PCS.
Import PCSTerms.










(** [pnl_pct = -3.0]: step 1 is chosen, reason "SL", confidence 0.9. *)
Example pcs_example_stop_loss :
  calculate_pnl_percentage (example_long 97) = Ret (-300 # 100)%Q
  /\ evaluate 0 example_ladder (example_market 97) (Some (example_long 97))
     = Ret (Some (exit_signal_of 0 example_ladder (example_market 97)
                    (example_long 97) (-300 # 100)
                    (mkLevel 1 2 (-1) true) "SL" (9 # 10))).
Proof. split; reflexivity. Qed.

(** [pnl_pct = 5.0]: step 2 is chosen, reason "TP", confidence 0.8. *)
Example pcs_example_take_profit :
  calculate_pnl_percentage (example_long 105) = Ret (500 # 100)%Q
  /\ evaluate 0 example_ladder (example_market 105) (Some (example_long 105))
     = Ret (Some (exit_signal_of 0 example_ladder (example_market 105)
                    (example_long 105) (500 # 100)
                    (mkLevel 2 4 (-2) true) "TP" (8 # 10))).
Proof. split; reflexivity. Qed.


End PCSSpec.

(** ** Combination of entry signals: [ConditionManager] *)
Module CombinerSpec.
Import Models BaseCondition.
Import CombinerTerms.







End CombinerSpec.

(** ** Combination of entry signals: [TradingEngine] *)
Module EngineSpec.
Import Models BaseCondition Engine.
Import EngineTerms.

Lemma fold_max_confidence (r : list Signal) (s0 : Signal) :
  let pick := fun best x : Signal =>
                if Qgtb (confidence x) (confidence best) then x else best in
  let b := fold_left pick r s0 in
  (b = s0 \/ In b r)
  /\ (confidence s0 <= confidence b)%Q
  /\ (forall x, In x r -> (confidence x <= confidence b)%Q).
Proof.
  cbv zeta. revert s0. induction r as [|x r IH]; intros s0; simpl.
  - split; [now left|]. split; [apply Qle_refl|]. intros x [].
  - destruct (Qgtb (confidence x) (confidence s0)) eqn:E.
    + destruct (IH x) as (Hin & Hle & Hall). unfold Qgtb in E.
      apply Qltb_lt in E. split; [|split].
      * destruct Hin as [-> | Hin]; right; [now left|now right].
      * apply Qlt_le_weak. eapply Qlt_le_trans; eassumption.
      * intros y [<- | Hy]; [exact Hle|now apply Hall].
    + destruct (IH s0) as (Hin & Hle & Hall). unfold Qgtb in E.
      apply Qltb_false in E. split; [|split].
      * destruct Hin as [-> | Hin]; [now left|right; now right].
      * exact Hle.
      * intros y [<- | Hy]; [|now apply Hall].
        eapply Qle_trans; eassumption.
Qed.

(** [max(signals, key=confidence)] is one of the signals and no signal has a
    higher confidence. *)
Lemma max_by_confidence_spec (signals : list Signal) (best : Signal) :
  max_by_confidence signals = Some best ->
  In best signals
  /\ forall s, In s signals -> (confidence s <= confidence best)%Q.
Proof.
  destruct signals as [|s0 r]; [discriminate|]. simpl. intros [= <-].
  destruct (fold_max_confidence r s0) as (Hin & Hle & Hall). split.
  - destruct Hin as [-> | Hin]; [now left|now right].
  - intros s [<- | Hs]; [exact Hle|now apply Hall].
Qed.






Lemma with_input_twice self rm i j :
  with_input (with_risk_manager (with_input self i) rm) j
  = with_input (with_risk_manager self rm) j.
Proof. reflexivity. Qed.







End EngineSpec.

(** ** One tick of the engine: what is executed *)
Module TickSpec.
Import Models BaseCondition Engine.
Import TickTerms.


(** [_execute_signals] itself calls the executor for every exit signal
    before any entry signal. *)
Lemma execute_signals_exits_first entry_signals exit_signals :
  _execute_signals entry_signals exit_signals
  = (map ExecuteExit exit_signals ++ map ExecuteEntry entry_signals)%list.
Proof. reflexivity. Qed.

(** Step 4 of the cycle hands [_execute_signals] the entry signals alone
    whenever there is one: the exit signals of the tick are not executed. *)
Lemma cycle_with_entries_executes_no_exit day self tick rm e es :
  _run_trading_cycle day self = (Ret tick, rm) ->
  entry_signals tick = Some (e :: es) ->
  executed tick = map ExecuteEntry (e :: es).
Proof.
  unfold _run_trading_cycle.
  destruct (is_trading_enabled self); cbn [negb];
    [|intros [= <- _]; discriminate].
  destruct (entry_conditions self) as [|c cs].
  - intros [= <- _]. discriminate.
  - destruct (_evaluate_entry_conditions day self) as [[l|ex] rm'].
    + intros [= <- _]. cbn [entry_signals executed]. intros [= ->].
      unfold _execute_signals. reflexivity.
    + discriminate.
Qed.

(** C2, the code at the failing input: the tick produces one entry signal
    and one exit signal, and the only executor call is the entry. *)
Theorem tick_with_both_executes_entry_only :
  let e := tagged_entry "binance" "A" "OR" (sample_signal BUY (8 # 10) "A") in
  let x := tagged_exit "binance" "BTCUSDT" (sample_signal SELL (9 # 10) "X") in
  _run_trading_cycle 0 both_engine
  = (Ret (mkTick (Some [e]) (Some [x]) [ExecuteEntry e]), None).
Proof. reflexivity. Qed.

(** [ConditionManager.evaluate_exit_conditions] answers with the signal of
    the first active condition that gives one; the conditions after it have
    no influence. *)
Lemma first_exit_signal_spec md position before c after s :
  Forall (silent md position) before ->
  evaluate c md (Some position) = Ret (Some s) ->
  first_exit_signal md position (before ++ c :: after) = Some s.
Proof.
  intros Hbefore Hc. induction Hbefore as [|b before Hb _ IH]; simpl.
  - rewrite Hc. reflexivity.
  - unfold silent in Hb.
    destruct (evaluate b md (Some position)) as [[?|]|?];
      [contradiction|exact IH|exact IH].
Qed.

Lemma first_exit_signal_none md position conds :
  Forall (silent md position) conds ->
  first_exit_signal md position conds = None.
Proof.
  induction 1 as [|b conds Hb _ IH]; simpl; [reflexivity|].
  unfold silent in Hb.
  destruct (evaluate b md (Some position)) as [[?|]|?];
    [contradiction|exact IH|exact IH].
Qed.

(** C7, the code at the failing input: the engine keeps the signals of both
    exit conditions for the one position and executes both, where
    [ConditionManager.evaluate_exit_conditions] on the same conditions
    answers with the first one only. *)
Theorem engine_collects_every_exit_signal :
  let x1 := sample_signal SELL (9 # 10) "X1" in
  let x2 := sample_signal SELL (8 # 10) "X2" in
  let t1 := tagged_exit "binance" "BTCUSDT" x1 in
  let t2 := tagged_exit "binance" "BTCUSDT" x2 in
  _evaluate_exit_conditions two_exits_engine = [t1; t2]
  /\ _run_trading_cycle 0 two_exits_engine
     = (Ret (mkTick None (Some [t1; t2]) [ExecuteExit t1; ExecuteExit t2]),
        None)
  /\ evaluate_exit_conditions
       (mkConditionManager [] (exit_conditions two_exits_engine) "OR")
       sample_market sample_position
     = Some x1.
Proof. repeat split. Qed.

End TickSpec.

(** ** The risk gate *)
Module RiskSpec.
Import Models Risk.
Import RiskTerms.

Lemma set_counters_attributes self trades loss date positions :
  lacks_balance_attributes self ->
  lacks_balance_attributes (set_counters self trades loss date positions).
Proof. intros H. exact H. Qed.

Lemma check_daily_trades_attributes today self :
  lacks_balance_attributes self ->
  lacks_balance_attributes (snd (_check_daily_trades today self)).
Proof.
  intros H. unfold _check_daily_trades.
  destruct (last_reset_date self <? today); exact H.
Qed.

Lemma validate_entry_signal_state today self signal :
  snd (validate_entry_signal today self signal)
  = snd (_check_daily_trades today self).
Proof.
  unfold validate_entry_signal.
  destruct (_check_daily_trades today self) as [ok self'].
  destruct ok; cbn [negb]; [|reflexivity].
  destruct (_check_max_positions self'); reflexivity.
Qed.

(** No method of the class, and no assignment made from outside, ever
    creates the attributes. *)
Lemma reachable_lacks_balance_attributes self :
  reachable self -> lacks_balance_attributes self.
Proof.
  induction 1 as [config today | today self signal _ IH | self position _ IH
                  | self position pnl _ IH | today self _ IH
                  | self value _ IH].
  - repeat split.
  - rewrite validate_entry_signal_state.
    apply check_daily_trades_attributes. exact IH.
  - exact IH.
  - exact IH.
  - exact IH.
  - exact IH.
Qed.

Lemma validate_raises today self signal :
  lacks_balance_attributes self ->
  fst (_check_daily_trades today self) = true ->
  _check_max_positions (snd (_check_daily_trades today self)) = true ->
  fst (validate_entry_signal today self signal) = Raise AttributeError.
Proof.
  intros Hattr Htrades Hpos.
  apply (check_daily_trades_attributes today) in Hattr.
  unfold validate_entry_signal.
  destruct (_check_daily_trades today self) as [ok self'].
  cbn [fst snd] in *. subst ok. cbn [negb]. rewrite Hpos. cbn [negb fst].
  unfold _check_daily_loss. destruct Hattr as (-> & _ & _). reflexivity.
Qed.

Lemma validate_never_accepts today self signal :
  lacks_balance_attributes self ->
  fst (validate_entry_signal today self signal) <> Ret true.
Proof.
  intros Hattr.
  destruct (fst (_check_daily_trades today self)) eqn:Et.
  - destruct (_check_max_positions (snd (_check_daily_trades today self)))
      eqn:Ep.
    + rewrite validate_raises by assumption. discriminate.
    + unfold validate_entry_signal.
      destruct (_check_daily_trades today self) as [ok self'].
      cbn [fst snd] in *. subst ok. cbn [negb]. rewrite Ep. discriminate.
  - unfold validate_entry_signal.
    destruct (_check_daily_trades today self) as [ok self'].
    cbn [fst] in Et. subst ok. discriminate.
Qed.

(** C6.  In every state a [RiskManager] can reach, when the daily-trade
    check and the open-position check both pass, [validate_entry_signal]
    raises [AttributeError] (reading [account_balance], which no code ever
    assigns) instead of returning a boolean; so it never returns [True]. *)
Theorem validate_entry_signal_raises_attribute_error :
  forall (today : Z) (self : RiskManager) (signal : Signal),
    reachable self ->
    (fst (_check_daily_trades today self) = true ->
     _check_max_positions (snd (_check_daily_trades today self)) = true ->
     fst (validate_entry_signal today self signal) = Raise AttributeError)
    /\ fst (validate_entry_signal today self signal) <> Ret true.
Proof.
  intros today self signal Hreach.
  apply reachable_lacks_balance_attributes in Hreach. split.
  - intros Ht Hp. apply validate_raises; assumption.
  - apply validate_never_accepts. exact Hreach.
Qed.

(** On the day of the last reset, a manager whose counter has reached the
    cap rejects every signal. *)
Lemma validate_rejects_at_cap today self signal :
  today <= last_reset_date self ->
  daily_trades self = daily_max_trades self ->
  validate_entry_signal today self signal = (Ret false, self).
Proof.
  intros Hday Hcap. unfold validate_entry_signal, _check_daily_trades.
  assert (E : (last_reset_date self <? today) = false)
    by (apply Z.ltb_ge; exact Hday).
  rewrite E, Hcap, Z.ltb_irrefl. reflexivity.
Qed.

(** Once the date is past the last reset date, the call resets the daily
    counters and moves the reset date. *)
Lemma validate_resets_counters today self signal :
  last_reset_date self < today ->
  let self' := snd (validate_entry_signal today self signal) in
  daily_trades self' = 0 /\ daily_loss self' = 0%Q
  /\ last_reset_date self' = today
  /\ (fst (_check_daily_trades today self) = true
      <-> 0 < daily_max_trades self).
Proof.
  intros Hday. cbv zeta. rewrite validate_entry_signal_state.
  unfold _check_daily_trades.
  apply Z.ltb_lt in Hday. rewrite Hday. cbn.
  repeat split; try reflexivity; intros H; apply Z.ltb_lt; exact H.
Qed.

Lemma manager_at_cap_reachable : reachable manager_at_cap.
Proof.
  unfold manager_at_cap.
  assert (H : forall n self, reachable self -> reachable (after_trades n self)).
  { induction n as [|n IH]; intros self Hs; simpl; [exact Hs|].
    apply IH. apply reach_closed. apply reach_opened. exact Hs. }
  apply H. apply reach_init.
Qed.

(** C5, the code at the failing input: at the cap the signal is rejected on
    day 0; on day 1 the counters are reset, but the call raises
    [AttributeError] instead of accepting. *)
Theorem validate_after_date_advance_raises :
  daily_trades manager_at_cap = daily_max_trades manager_at_cap
  /\ active_positions manager_at_cap = []
  /\ fst (validate_entry_signal 0 manager_at_cap some_signal) = Ret false
  /\ fst (validate_entry_signal 1 manager_at_cap some_signal)
     = Raise AttributeError
  /\ daily_trades (snd (validate_entry_signal 1 manager_at_cap some_signal))
     = 0.
Proof. repeat split. Qed.

(** C6 at a manager fresh from [__init__] with the default limits. *)
Lemma validate_entry_signal_raises_attribute_error_witness :
  reachable (RiskManager_init default_config 0)
  /\ fst (_check_daily_trades 0 (RiskManager_init default_config 0)) = true
  /\ _check_max_positions
       (snd (_check_daily_trades 0 (RiskManager_init default_config 0)))
     = true
  /\ fst (validate_entry_signal 0 (RiskManager_init default_config 0)
            some_signal) = Raise AttributeError.
Proof.
  split; [apply reach_init|]. split; [reflexivity|]. split; [reflexivity|].
  apply (validate_entry_signal_raises_attribute_error 0
           (RiskManager_init default_config 0) some_signal).
  - apply reach_init.
  - reflexivity.
  - reflexivity.
Defined.

End RiskSpec.

(** ** Moving-average conditions: not enough data *)
Module MovingAverageSpec.
Import Models MovingAverage.

(** C8.  For market data with fewer than [long_period] close prices the
    moving-average-cross evaluator returns [None]; it raises nothing (its
    answer is a value, every exception being caught inside) and leaves the
    condition as it was. *)
Theorem mtf_evaluate_insufficient_data :
  forall (now : Z) (self : MultiTimeframeMACondition) (md : MarketData),
    Z.of_nat (length (close_prices md)) < long_period self ->
    mtf_evaluate now self md = (None, self).
Proof.
  intros now self md Hlen. unfold mtf_evaluate, mtf_evaluate_body.
  destruct (negb (mtf_is_enabled self)
            || negb (BaseCondition._validate_market_data md));
    [reflexivity|].
  apply Z.ltb_lt in Hlen. rewrite Hlen. reflexivity.
Qed.

(** The single moving-average condition behaves alike below its [period],
    for a condition as [__init__] and [update_config] leave it. *)
Lemma ma_evaluate_insufficient_data now self md :
  min_data_points self = Z.max (period self) 4 ->
  Z.of_nat (length (close_prices md)) < period self ->
  evaluate now self md = (None, self).
Proof.
  intros Hmin Hlen. unfold evaluate, evaluate_body.
  destruct (negb (ma_is_enabled self)); [reflexivity|].
  destruct (negb (BaseCondition._validate_market_data md)); [reflexivity|].
  assert (E : (Z.of_nat (length (close_prices md)) <? min_data_points self)
              = true) by (apply Z.ltb_lt; lia).
  rewrite E. reflexivity.
Qed.

(** C8 at three close prices and the default periods 10 and 20. *)
Lemma mtf_evaluate_insufficient_data_witness :
  let self := mkMTF "MTF" true (7 # 10) 10 20 (BaseCondition.mkStats 0 0 None) in
  let md := mkMarketData "BTCUSDT" 100 [99%Q; 100%Q; 101%Q] [] [] 0 0 in
  Z.of_nat (length (close_prices md)) < long_period self
  /\ mtf_evaluate 0 self md = (None, self).
Proof.
  cbv zeta. split; [reflexivity|].
  apply mtf_evaluate_insufficient_data. reflexivity.
Defined.

End MovingAverageSpec.

(** ** Price-channel breakout *)
Module PriceChannelSpec.
Import Models PriceChannel.
Import PriceChannelTerms.

Ltac by_cases_on_comparisons :=
  unfold pymin, pymax, Qgtb, Qgeb in *;
  repeat match goal with
         | |- context [Qltb ?a ?b] =>
             let E := fresh "E" in
             destruct (Qltb a b) eqn:E;
             [apply Qltb_lt in E | apply Qltb_false in E]
         end;
  try lra.




Lemma fold_pymax_spec (r : list Q) (x0 : Q) :
  let m := fold_left pymax r x0 in
  (m = x0 \/ In m r) /\ (x0 <= m)%Q /\ forall x, In x r -> (x <= m)%Q.
Proof.
  cbv zeta. revert x0. induction r as [|y r IH]; intros x0; simpl.
  - split; [now left|]. split; [apply Qle_refl|]. intros x [].
  - destruct (IH (pymax x0 y)) as (Hin & Hle & Hall).
    assert (Hx : (x0 <= pymax x0 y)%Q) by by_cases_on_comparisons.
    assert (Hy : (y <= pymax x0 y)%Q) by by_cases_on_comparisons.
    assert (Hm : pymax x0 y = x0 \/ pymax x0 y = y)
      by (unfold pymax; destruct (Qgtb y x0); auto).
    split; [|split].
    + destruct Hin as [-> | Hin]; [|right; now right].
      destruct Hm as [-> | ->]; [now left|right; now left].
    + lra.
    + intros x [<- | Hx']; [lra|now apply Hall].
Qed.

Lemma fold_pymin_spec (r : list Q) (x0 : Q) :
  let m := fold_left pymin r x0 in
  (m = x0 \/ In m r) /\ (m <= x0)%Q /\ forall x, In x r -> (m <= x)%Q.
Proof.
  cbv zeta. revert x0. induction r as [|y r IH]; intros x0; simpl.
  - split; [now left|]. split; [apply Qle_refl|]. intros x [].
  - destruct (IH (pymin x0 y)) as (Hin & Hle & Hall).
    assert (Hx : (pymin x0 y <= x0)%Q) by by_cases_on_comparisons.
    assert (Hy : (pymin x0 y <= y)%Q) by by_cases_on_comparisons.
    assert (Hm : pymin x0 y = x0 \/ pymin x0 y = y)
      by (unfold pymin; destruct (Qltb y x0); auto).
    split; [|split].
    + destruct Hin as [-> | Hin]; [|right; now right].
      destruct Hm as [-> | ->]; [now left|right; now left].
    + lra.
    + intros x [<- | Hx']; [lra|now apply Hall].
Qed.

(** [max(l)] is an element of [l] above all the others; [min(l)] one below
    all the others. *)
Lemma pymax_list_spec l m :
  pymax_list l = Ret m -> In m l /\ forall x, In x l -> (x <= m)%Q.
Proof.
  destruct l as [|x0 r]; [discriminate|]. simpl. intros [= <-].
  destruct (fold_pymax_spec r x0) as (Hin & Hle & Hall). split.
  - destruct Hin as [-> | Hin]; [now left|now right].
  - intros x [<- | Hx]; [exact Hle|now apply Hall].
Qed.

Lemma pymin_list_spec l m :
  pymin_list l = Ret m -> In m l /\ forall x, In x l -> (m <= x)%Q.
Proof.
  destruct l as [|x0 r]; [discriminate|]. simpl. intros [= <-].
  destruct (fold_pymin_spec r x0) as (Hin & Hle & Hall). split.
  - destruct Hin as [-> | Hin]; [now left|now right].
  - intros x [<- | Hx]; [exact Hle|now apply Hall].
Qed.


Lemma Signal_new_inv ty sym p c src ts meta s :
  Signal_new ty sym p c src ts meta = Ret s ->
  symbol s = sym /\ price s = p /\ confidence s = c /\ source s = src
  /\ metadata s = meta.
Proof.
  unfold Signal_new.
  destruct (match ty with
            | AMember t => Ret t
            | AStr str => SignalType_of str
            | AOther => Raise ValueError
            end) as [t|]; cbn; [|discriminate].
  destruct (String.eqb sym ""); [discriminate|].
  destruct (Qleb p 0); [discriminate|].
  destruct (negb _); [discriminate|].
  intros [= <-]. repeat split.
Qed.

Lemma breakout_signal_inv now self md ch kind dir conf num line s :
  breakout_signal now self md ch kind dir conf num line = Ret s ->
  confidence s = conf /\ price s = md_current_price md
  /\ metadata s !! "breakout_type" = Some (MStr kind).
Proof.
  unfold breakout_signal.
  destruct (pydiv num line); cbn [mbind result_bind]; [|discriminate].
  unfold BaseCondition._create_signal.
  destruct (SignalType_of _); cbn [mbind result_bind]; [|discriminate].
  intros H. apply Signal_new_inv in H.
  destruct H as (_ & Hp & Hc & _ & Hm). rewrite Hm. repeat split; assumption.
Qed.

Lemma lower_breakout_check_inv now self md ch s :
  lower_breakout_check now self md ch = Ret (Some s) ->
  lower_fired self md ch s
  /\ (confidence_threshold self <= confidence s)%Q.
Proof.
  unfold lower_breakout_check.
  destruct (String.eqb_spec (lower_breakout self) "none") as [|Hne];
    cbn [negb]; [discriminate|].
  destruct (Qltb _ _) eqn:Elt; [|discriminate].
  destruct (Qgeb _ _) eqn:Ege; [|discriminate].
  destruct (breakout_signal _ _ _ _ _ _ _ _ _) as [s'|] eqn:Es;
    cbn; [|discriminate].
  intros [= <-]. apply breakout_signal_inv in Es.
  destruct Es as (Hc & _ & Hm). apply Qltb_lt in Elt.
  unfold Qgeb in Ege. apply Qleb_le in Ege. rewrite Hc.
  repeat split; assumption.
Qed.


Lemma evaluate_breakout_inv now self md ch s :
  _evaluate_breakout now self md ch = Ret (Some s) ->
  (upper_fired self md ch s \/ lower_fired self md ch s)
  /\ (confidence_threshold self <= confidence s)%Q.
Proof.
  unfold _evaluate_breakout.
  destruct (String.eqb_spec (upper_breakout self) "none") as [|Hne];
    cbn [negb].
  { intros H. apply lower_breakout_check_inv in H. tauto. }
  destruct (Qgtb _ _) eqn:Egt.
  2: { intros H. apply lower_breakout_check_inv in H. tauto. }
  destruct (Qgeb _ _) eqn:Ege.
  2: { intros H. apply lower_breakout_check_inv in H. tauto. }
  destruct (breakout_signal _ _ _ _ _ _ _ _ _) as [s'|] eqn:Es;
    cbn; [|discriminate].
  intros [= <-]. apply breakout_signal_inv in Es.
  destruct Es as (Hc & _ & Hm). unfold Qgtb in Egt. apply Qltb_lt in Egt.
  unfold Qgeb in Ege. apply Qleb_le in Ege. rewrite Hc.
  split; [left; repeat split; assumption|assumption].
Qed.



Lemma breakout_confidence_upper cur line :
  ~ (line == 0)%Q ->
  _calculate_breakout_confidence cur line "upper"
  = confidence_of_percentage ((cur - line) / line * 100).
Proof.
  intros Hl. unfold _calculate_breakout_confidence, pydiv.
  apply Qeqb_false in Hl. cbn. rewrite Hl. reflexivity.
Qed.

Lemma breakout_confidence_lower cur line :
  ~ (line == 0)%Q ->
  _calculate_breakout_confidence cur line "lower"
  = confidence_of_percentage ((line - cur) / line * 100).
Proof.
  intros Hl. unfold _calculate_breakout_confidence, pydiv.
  apply Qeqb_false in Hl. cbn. rewrite Hl. reflexivity.
Qed.

Lemma evaluate_inv now self md s self' :
  evaluate now self md = (Some s, self') ->
  exists ch,
    _calculate_price_channel self md = Some ch
    /\ _evaluate_breakout now self md ch = Ret (Some s).
Proof.
  unfold evaluate, evaluate_body.
  destruct (negb (is_enabled self)); [discriminate|].
  destruct (negb (BaseCondition._validate_market_data md)); [discriminate|].
  destruct (_ || _); [discriminate|].
  destruct (_calculate_price_channel self md) as [ch|]; [|discriminate].
  destruct (_evaluate_breakout now self md ch) as [sig|] eqn:Eb;
    cbn [mbind result_bind]; [|discriminate].
  intros [= -> _]. exists ch. split; [reflexivity|exact Eb].
Qed.





End PriceChannelSpec.

(** ** core/models.py: positions, orders and statistics *)
Module LedgerSpec.
Import Models Ledger.

Lemma side_cases (p : Position) :
  is_long p = true \/ is_long p = false.
Proof. destruct (is_long p); auto. Qed.



(** X2.  A flat position (size zero) with a non-zero entry price makes
    [calculate_pnl_percentage] raise [ZeroDivisionError], although
    [__post_init__] accepts a size of zero. *)
Theorem pnl_percentage_of_flat_position_raises :
  forall (sym : string) (sd : PositionSide) (entry cur : Q) (p : Position),
    (0 < entry)%Q -> (0 < cur)%Q ->
    Position_new sym (AMember sd) 0 entry cur 0 0 1 0 0 = Ret p ->
    calculate_pnl_percentage p = Raise ZeroDivisionError.
Proof.
  intros sym sd entry cur p He Hc. unfold Position_new.
  cbn [mbind result_bind]. cbn [Qltb Qle_bool Qnum Qden negb].
  change (Qltb 0 0) with false. cbv iota.
  pose proof He as He1. apply Qleb_false in He1. rewrite He1.
  pose proof Hc as Hc1. apply Qleb_false in Hc1. rewrite Hc1.
  intros [= <-]. unfold calculate_pnl_percentage, calculate_pnl, pydiv.
  cbn [entry_price size].
  assert (Hne : Qeqb entry 0 = false).
  { apply Qeqb_false. intros H. rewrite H in He. discriminate. }
  rewrite Hne.
  assert (Hz : Qeqb (entry * 0) 0 = true).
  { apply Qeqb_eq. ring. }
  rewrite Hz. reflexivity.
Qed.

Lemma pnl_percentage_of_flat_position_raises_witness :
  (0 < 100)%Q /\ (0 < 101)%Q
  /\ calculate_pnl_percentage
       (mkPosition "BTCUSDT" (SideOf LONG) 0 100 101 0 0 1 0 0)
     = Raise ZeroDivisionError.
Proof.
  split; [reflexivity|]. split; [reflexivity|].
  apply (pnl_percentage_of_flat_position_raises "BTCUSDT" LONG 100 101);
    reflexivity.
Defined.

(** X3.  [update_current_price] stores the new price and the PnL that goes
    with it; for a long position of positive size the stored unrealized PnL
    is negative exactly when the new price is below the entry price. *)
Theorem update_current_price_refreshes_pnl :
  forall (p : Position) (new_price : Q),
    is_long p = true -> (0 < size p)%Q ->
    let p' := update_current_price p new_price in
    current_price p' = new_price
    /\ unrealized_pnl p' = calculate_pnl p'
    /\ (unrealized_pnl p' == (new_price - entry_price p) * size p)%Q
    /\ ((unrealized_pnl p' < 0)%Q <-> (new_price < entry_price p)%Q).
Proof.
  intros p new_price Hlong Hsz. cbv zeta.
  assert (Hne : Qeqb (size p) 0 = false).
  { apply Qeqb_false. intros H. rewrite H in Hsz. discriminate. }
  assert (Hval : unrealized_pnl (update_current_price p new_price)
                 = ((new_price - entry_price p) * size p)%Q).
  { unfold update_current_price, calculate_pnl, is_long in *.
    cbn [unrealized_pnl size side current_price entry_price].
    rewrite Hne. destruct (side p) as [[|]|]; try discriminate. reflexivity. }
  split; [reflexivity|]. split.
  - rewrite Hval. unfold update_current_price, calculate_pnl, is_long in *.
    cbn [size side current_price entry_price].
    rewrite Hne. destruct (side p) as [[|]|]; try discriminate. reflexivity.
  - rewrite Hval. split; [reflexivity|]. split; intros H.
    + destruct (Qlt_le_dec new_price (entry_price p)) as [Hlt|Hge];
        [exact Hlt|]. exfalso.
      assert (0 <= (new_price - entry_price p) * size p)%Q
        by (apply Qmult_le_0_compat; lra).
      lra.
    + assert (0 < (entry_price p - new_price) * size p)%Q
        by (apply Qmult_lt_0_compat; lra).
      lra.
Qed.

Lemma update_current_price_refreshes_pnl_witness :
  let p := mkPosition "BTCUSDT" (SideOf LONG) 2 100 100 0 0 1 0 0 in
  is_long p = true /\ (0 < size p)%Q
  /\ (unrealized_pnl (update_current_price p 90) == -20)%Q.
Proof.
  cbv zeta. split; [reflexivity|]. split; [reflexivity|].
  destruct (update_current_price_refreshes_pnl
              (mkPosition "BTCUSDT" (SideOf LONG) 2 100 100 0 0 1 0 0) 90)
    as (_ & _ & H & _); [reflexivity|reflexivity|].
  rewrite H. reflexivity.
Defined.

(** X4.  [Signal.to_order] never gives an order for a non-positive
    quantity: it raises [ValueError].  For a signal with a non-empty symbol
    and a positive quantity it gives an order on the signal's symbol whose
    side is the signal's type and which carries the signal's price exactly
    when the order type is [LIMIT]. *)
Theorem to_order_checks_quantity :
  forall (s : Signal) (qty : Q) (ot : OrderType),
    symbol s <> "" ->
    ((qty <= 0)%Q -> to_order s qty ot = Raise ValueError)
    /\ ((0 < qty)%Q ->
        exists o,
          to_order s qty ot = Ret o
          /\ o_symbol o = symbol s
          /\ o_side o = SignalType_value (type s)
          /\ quantity o = qty
          /\ order_type o = ot
          /\ o_price o = (if OrderType_eqb ot LIMIT then Some (price s)
                          else None)
          /\ reduce_only o = false).
Proof.
  intros s qty ot Hsym. unfold to_order, Order_new.
  apply string_eqb_empty in Hsym. rewrite Hsym.
  assert (Hside : negb (String.eqb (SignalType_value (type s)) "BUY"
                        || String.eqb (SignalType_value (type s)) "SELL")
                  = false) by (destruct (type s); reflexivity).
  rewrite Hside. split; intros Hq.
  - apply Qleb_le in Hq. rewrite Hq. reflexivity.
  - apply Qleb_false in Hq. rewrite Hq. eexists. repeat split.
Qed.

Lemma to_order_checks_quantity_witness :
  let s := mkSignal BUY "BTCUSDT" 100 (8 # 10) "MA" 0 ∅ in
  symbol s <> "" /\ (0 <= 0)%Q /\ to_order s 0 MARKET = Raise ValueError.
Proof.
  cbv zeta. split; [discriminate|]. split; [discriminate|].
  apply (to_order_checks_quantity
           (mkSignal BUY "BTCUSDT" 100 (8 # 10) "MA" 0 ∅) 0 MARKET).
  - discriminate.
  - discriminate.
Defined.

End LedgerSpec.

(** ** core/models.py: statistics and market-data queries *)
Module StatsSpec.
Import Models Ledger StatsTerms.

Lemma wins_cons t trades :
  wins (t :: trades) = (if Qgtb (fst t) 0 then 1 else 0) + wins trades.
Proof.
  unfold wins. simpl. destruct (Qgtb (fst t) 0); simpl length; lia.
Qed.

Lemma wins_bounds trades : 0 <= wins trades <= Z.of_nat (length trades).
Proof.
  induction trades as [|t trades IH]; [unfold wins; simpl; lia|].
  rewrite wins_cons. destruct (Qgtb (fst t) 0); simpl length; lia.
Qed.

Lemma update_all_counts (trades : list (Q * Q)) :
  forall st : TradingStats,
    0 <= total_trades st ->
    exists st',
      update_all st trades = Ret st'
      /\ total_trades st' = total_trades st + Z.of_nat (length trades)
      /\ winning_trades st' = winning_trades st + wins trades
      /\ losing_trades st'
         = losing_trades st + (Z.of_nat (length trades) - wins trades)
      /\ (trades <> [] ->
          win_rate st'
          = (inject_Z (winning_trades st') / inject_Z (total_trades st')
             * 100)%Q).
Proof.
  induction trades as [|[pnl commission] trades IH]; intros st Hpos.
  - exists st. simpl. unfold wins. simpl.
    repeat split; try lia. congruence.
  - cbn [update_all]. unfold update_stats.
    assert (Ht : (0 <? total_trades st + 1) = true) by (apply Z.ltb_lt; lia).
    rewrite Ht. unfold pydiv.
    assert (Hd : Qeqb (inject_Z (total_trades st + 1)) 0 = false).
    { apply Qeqb_false. intros H.
      assert (0 < inject_Z (total_trades st + 1))%Q
        by (change 0%Q with (inject_Z 0); rewrite <- Zlt_Qlt; lia).
      rewrite H in H0. discriminate. }
    rewrite Hd. cbn [mbind result_bind].
    match goal with
    | |- context [update_all ?s trades] =>
        destruct (IH s) as (st' & Hrun & Htot & Hwon & Hlost & Hrate);
        [cbn [total_trades]; lia|]
    end.
    exists st'. split; [exact Hrun|].
    cbn [total_trades winning_trades losing_trades win_rate] in *.
    rewrite wins_cons. cbn [fst]. simpl length.
    destruct (Qgtb pnl 0); repeat split; try lia.
    + intros _. destruct trades as [|t trades'];
        [|apply Hrate; discriminate].
      simpl in Hrun. injection Hrun as <-. reflexivity.
    + intros _. destruct trades as [|t trades'];
        [|apply Hrate; discriminate].
      simpl in Hrun. injection Hrun as <-. reflexivity.
Qed.

(** X5.  Starting from fresh statistics, any run of [update_stats] calls
    succeeds and counts every trade once: the winning trades are those with
    a strictly positive PnL, a break-even trade counts as a losing one,
    winners and losers add up to the total, and after at least one trade
    the win rate is [winning / total * 100], between 0 and 100. *)
Theorem update_stats_counts_every_trade :
  forall trades : list (Q * Q),
    exists st,
      update_all TradingStats_init trades = Ret st
      /\ total_trades st = Z.of_nat (length trades)
      /\ winning_trades st = wins trades
      /\ winning_trades st + losing_trades st = total_trades st
      /\ (trades <> [] ->
          win_rate st
          = (inject_Z (winning_trades st) / inject_Z (total_trades st)
             * 100)%Q
          /\ (0 <= win_rate st <= 100)%Q).
Proof.
  intros trades.
  destruct (update_all_counts trades TradingStats_init) as
    (st & Hrun & Htot & Hwon & Hlost & Hrate); [simpl; lia|].
  cbn [TradingStats_init total_trades winning_trades losing_trades] in *.
  exists st. split; [exact Hrun|]. split; [lia|]. split; [lia|].
  split; [lia|]. intros Hne. specialize (Hrate Hne). split; [exact Hrate|].
  rewrite Hrate. pose proof (wins_bounds trades) as Hb.
  assert (Hlen : 0 < total_trades st).
  { rewrite Htot. destruct trades; [congruence|simpl; lia]. }
  assert (Hq : (0 < inject_Z (total_trades st))%Q)
    by (change 0%Q with (inject_Z 0); rewrite <- Zlt_Qlt; lia).
  assert (Hw0 : (0 <= inject_Z (winning_trades st))%Q)
    by (change 0%Q with (inject_Z 0); rewrite <- Zle_Qle; lia).
  assert (Hw1 : (inject_Z (winning_trades st) <= inject_Z (total_trades st))%Q)
    by (rewrite <- Zle_Qle; lia).
  split.
  - apply Qmult_le_0_compat; [|discriminate].
    apply Qle_shift_div_l; [exact Hq|]. lra.
  - assert (inject_Z (winning_trades st) / inject_Z (total_trades st) <= 1)%Q
      by (apply Qle_shift_div_r; [exact Hq|]; lra).
    lra.
Qed.

(** A single break-even trade is a losing trade. *)
Example break_even_trade_is_a_loss :
  exists st,
    update_stats TradingStats_init 0 (1 # 10) = Ret st
    /\ winning_trades st = 0 /\ losing_trades st = 1.
Proof. eexists. repeat split. Qed.

Lemma slice_from_last {A : Type} (p : Z) (l : list A) :
  0 < p <= Z.of_nat (length l) ->
  slice_from (- p) l = skipn (length l - Z.to_nat p) l
  /\ length (slice_from (- p) l) = Z.to_nat p.
Proof.
  intros Hp. unfold slice_from.
  assert (E : (- p <? 0) = true) by (apply Z.ltb_lt; lia).
  rewrite E.
  replace (Z.to_nat (Z.max 0 (Z.of_nat (length l) + - p)))
    with (length l - Z.to_nat p)%nat by lia.
  split; [reflexivity|]. rewrite length_skipn. lia.
Qed.




(** X7.  The channel of [PriceChannelCondition] and
    [MarketData.get_price_channel] agree: whenever the condition computes a
    channel for its period, the market data's own query gives the same upper
    and lower lines. *)
Theorem price_channel_queries_agree :
  forall (self : PriceChannel.PriceChannelCondition) (m : MarketData)
         (ch : PriceChannel.Channel),
    PriceChannel._calculate_price_channel self m = Some ch ->
    get_price_channel m (PriceChannel.period self)
    = Ret (Some (PriceChannel.upper ch, PriceChannel.lower ch)).
Proof.
  intros self m ch. unfold PriceChannel._calculate_price_channel.
  set (p := PriceChannel.period self).
  destruct (Z.of_nat (length (slice_from (- p) (high_prices m))) <? p)
    eqn:Eh; [discriminate|].
  destruct (Z.of_nat (length (slice_from (- p) (low_prices m))) <? p)
    eqn:El; [discriminate|]. cbn [orb].
  assert (Hlen : forall l : list Q,
            (Z.of_nat (length (slice_from (- p) l)) <? p) = false ->
            (Z.of_nat (length l) <? p) = false).
  { intros l H. apply Z.ltb_ge in H. apply Z.ltb_ge.
    assert (length (slice_from (- p) l) <= length l)%nat
      by (unfold slice_from; rewrite length_skipn; lia).
    lia. }
  unfold get_price_channel.
  rewrite (Hlen _ Eh), (Hlen _ El). cbn [orb].
  destruct (pymax_list _) as [u|]; [|discriminate].
  destruct (pymin_list _) as [l|]; [|discriminate].
  cbn [mbind result_bind].
  destruct (pydiv _ _); cbn [mbind result_bind]; [|discriminate].
  intros [= <-]. reflexivity.
Qed.

Lemma price_channel_queries_agree_witness :
  let self := PriceChannelTerms.watching_both in
  let m := PriceChannelTerms.ranging_market 103 in
  exists ch,
    PriceChannel._calculate_price_channel self m = Some ch
    /\ get_price_channel m (PriceChannel.period self)
       = Ret (Some (PriceChannel.upper ch, PriceChannel.lower ch)).
Proof.
  cbv zeta.
  assert (Hch : exists ch,
            PriceChannel._calculate_price_channel
              PriceChannelTerms.watching_both
              (PriceChannelTerms.ranging_market 103) = Some ch)
    by (vm_compute; eexists; reflexivity).
  destruct Hch as [ch Hch]. exists ch. split; [exact Hch|].
  exact (price_channel_queries_agree _ _ _ Hch).
Defined.

End StatsSpec.

(** ** conditions/base_condition.py: the OR combination and the lists *)
Module ManagerSpec.
Import Models BaseCondition ManagerOps ManagerTerms.

(** X8.  In any mode other than "AND" (so in "OR")
    [_combine_entry_signals] raises nothing, gives no signal for no input,
    and otherwise returns one of the input signals, unchanged, whose
    confidence no other input signal exceeds. *)
Theorem or_combination_returns_best_signal :
  forall (now : Z) (self : ConditionManager) (signals : list Signal),
    combination_mode self <> "AND" ->
    (signals = [] -> _combine_entry_signals now self signals = Ret None)
    /\ (signals <> [] ->
        exists best,
          _combine_entry_signals now self signals = Ret (Some best)
          /\ In best signals
          /\ forall s, In s signals -> (confidence s <= confidence best)%Q).
Proof.
  intros now self signals Hmode. split.
  - intros ->. reflexivity.
  - intros Hne. destruct signals as [|s0 r]; [congruence|].
    unfold _combine_entry_signals.
    destruct (String.eqb_spec (combination_mode self) "AND") as [E|_];
      [contradiction|].
    destruct (max_by_confidence (s0 :: r)) as [best|] eqn:Eb;
      [|discriminate].
    exists best. split; [reflexivity|].
    apply EngineSpec.max_by_confidence_spec. exact Eb.
Qed.

Lemma or_combination_returns_best_signal_witness :
  let mgr := mkConditionManager [] [] "OR" in
  let a := mkSignal BUY "BTCUSDT" 100 (6 # 10) "A" 0 ∅ in
  let b := mkSignal SELL "BTCUSDT" 100 (8 # 10) "B" 0 ∅ in
  combination_mode mgr <> "AND"
  /\ [a; b] <> []
  /\ exists best, _combine_entry_signals 0 mgr [a; b] = Ret (Some best)
                  /\ In best [a; b].
Proof.
  cbv zeta. split; [discriminate|]. split; [discriminate|].
  destruct (or_combination_returns_best_signal 0
              (mkConditionManager [] [] "OR")
              [mkSignal BUY "BTCUSDT" 100 (6 # 10) "A" 0 ∅;
               mkSignal SELL "BTCUSDT" 100 (8 # 10) "B" 0 ∅])
    as [_ H]; [discriminate|].
  destruct H as (best & Hb & Hin & _); [discriminate|].
  exists best. split; assumption.
Defined.

Lemma apply_call_mode self call :
  combination_mode self = "AND" \/ combination_mode self = "OR" ->
  combination_mode (apply_call self call) = "AND"
  \/ combination_mode (apply_call self call) = "OR".
Proof.
  intros H. destruct call as [c|c|n|n|m| |]; cbn [apply_call]; try exact H.
  - unfold remove_entry_condition.
    destruct (remove_by_name n (entry_conditions self)). exact H.
  - unfold remove_exit_condition.
    destruct (remove_by_name n (exit_conditions self)). exact H.
  - unfold set_combination_mode.
    destruct (String.eqb_spec m "AND") as [->|_]; [now left|].
    destruct (String.eqb_spec m "OR") as [->|_]; [now right|].
    exact H.
Qed.

(** X9.  Whatever calls are made on a [ConditionManager] after
    [__init__], its combination mode is "AND" or "OR":
    [set_combination_mode] ignores every other string. *)
Theorem combination_mode_is_and_or_or :
  forall calls : list ManagerCall,
    let self := fold_left apply_call calls ConditionManager_init in
    combination_mode self = "AND" \/ combination_mode self = "OR".
Proof.
  intros calls. cbv zeta.
  assert (H : forall self,
            combination_mode self = "AND" \/ combination_mode self = "OR" ->
            combination_mode (fold_left apply_call calls self) = "AND"
            \/ combination_mode (fold_left apply_call calls self) = "OR").
  { induction calls as [|call calls IH]; intros self Hs; simpl; [exact Hs|].
    apply IH. apply apply_call_mode. exact Hs. }
  apply H. now right.
Qed.

(** X10.  The removal loop of [remove_entry_condition] and
    [remove_exit_condition] answers [True] exactly when a condition of that
    name is in the list; it then deletes one occurrence of the name, the
    first, and keeps every condition of another name in place; on [False]
    the list is unchanged. *)
Theorem remove_by_name_removes_first :
  forall (condition_name : string) (l : list Condition),
    let '(found, l') := remove_by_name condition_name l in
    (found = true <-> (0 < occurrences condition_name l)%nat)
    /\ (found = false -> l' = l)
    /\ (found = true ->
        S (length l') = length l
        /\ S (occurrences condition_name l') = occurrences condition_name l
        /\ exists before c after,
             l = (before ++ c :: after)%list
             /\ l' = (before ++ after)%list
             /\ name c = condition_name
             /\ occurrences condition_name before = 0%nat)
    /\ List.filter (fun c => negb (String.eqb (name c) condition_name)) l'
       = List.filter (fun c => negb (String.eqb (name c) condition_name)) l.
Proof.
  intros n l. induction l as [|c l IH]; cbn [remove_by_name].
  - unfold occurrences. simpl. repeat split; try discriminate; try lia.
  - unfold occurrences in *. cbn [List.filter].
    destruct (String.eqb_spec (name c) n) as [Hc|Hc]; cbn [negb].
    + split; [split; [simpl; lia|reflexivity]|].
      split; [discriminate|]. split; [|reflexivity].
      intros _. split; [reflexivity|]. split; [reflexivity|].
      exists [], c, l. simpl. repeat split. exact Hc.
    + assert (Hcons : forall l0,
                List.filter (fun c => String.eqb (name c) n) (c :: l0)
                = List.filter (fun c => String.eqb (name c) n) l0).
      { intros l0. cbn [List.filter].
        destruct (String.eqb_spec (name c) n); [contradiction|reflexivity]. }
      assert (Hcons' : forall l0,
                List.filter (fun c => negb (String.eqb (name c) n)) (c :: l0)
                = c :: List.filter (fun c => negb (String.eqb (name c) n)) l0).
      { intros l0. cbn [List.filter].
        destruct (String.eqb_spec (name c) n); [contradiction|reflexivity]. }
      destruct (remove_by_name n l) as [found l'].
      destruct IH as (Hiff & Hkeep & Hdel & Hothers).
      split; [exact Hiff|]. split; [intros Hf; f_equal; auto|].
      split; [|rewrite !Hcons'; f_equal; exact Hothers].
      intros Hf. destruct (Hdel Hf) as (Hlen & Hocc & before & x & after
                                        & Hl & Hl' & Hx & Hb).
      split; [simpl; lia|]. split; [rewrite Hcons; exact Hocc|].
      exists (c :: before), x, after. rewrite Hl, Hl'.
      split; [reflexivity|]. split; [reflexivity|]. split; [exact Hx|].
      rewrite Hcons. exact Hb.
Qed.

Lemma filter_disabled (l : list Condition) :
  List.filter is_active (map disable l) = [].
Proof. induction l as [|c l IH]; simpl; [reflexivity|exact IH]. Qed.

(** X11.  After [disable_all_conditions] the manager gives no entry signal
    and no exit signal, in either mode and whatever the market data and the
    position. *)
Theorem disabled_manager_is_silent :
  forall (now : Z) (self : ConditionManager) (md : MarketData)
         (position : Position),
    evaluate_entry_conditions now (disable_all_conditions self) md = Ret None
    /\ evaluate_exit_conditions (disable_all_conditions self) md position
       = None.
Proof.
  intros now self md position.
  unfold evaluate_entry_conditions, evaluate_exit_conditions,
    disable_all_conditions.
  cbn [entry_conditions exit_conditions]. rewrite !filter_disabled.
  split.
  - destruct (map disable (entry_conditions self)); reflexivity.
  - destruct (map disable (exit_conditions self)); reflexivity.
Qed.

Lemma evaluate_exit_conditions_filter self md position :
  evaluate_exit_conditions self md position
  = first_exit_signal md position
      (List.filter is_active (exit_conditions self)).
Proof.
  unfold evaluate_exit_conditions.
  destruct (exit_conditions self) as [|c l]; [reflexivity|].
  destruct (List.filter is_active (c :: l)); reflexivity.
Qed.

Lemma first_exit_signal_inv md position (l : list Condition) s :
  first_exit_signal md position (List.filter is_active l) = Some s ->
  exists before c after,
    l = (before ++ c :: after)%list
    /\ Forall (passed_over md position) before
    /\ is_active c = true
    /\ evaluate c md (Some position) = Ret (Some s).
Proof.
  induction l as [|c l IH]; cbn [List.filter first_exit_signal];
    [discriminate|].
  destruct (is_active c) eqn:Ea.
  - cbn [first_exit_signal].
    destruct (evaluate c md (Some position)) as [[s'|]|e] eqn:Ev.
    + intros [= ->]. exists [], c, l. repeat split; auto.
    + intros H. destruct (IH H) as (b & x & a & -> & Hb & Hx & Hs).
      exists (c :: b), x, a. repeat split; auto.
      constructor; [|exact Hb]. right. rewrite Ev. exact I.
    + intros H. destruct (IH H) as (b & x & a & -> & Hb & Hx & Hs).
      exists (c :: b), x, a. repeat split; auto.
      constructor; [|exact Hb]. right. rewrite Ev. exact I.
  - intros H. destruct (IH H) as (b & x & a & -> & Hb & Hx & Hs).
    exists (c :: b), x, a. repeat split; auto.
    constructor; [|exact Hb]. now left.
Qed.

Lemma first_exit_signal_skip md position (before : list Condition) c after s :
  Forall (passed_over md position) before ->
  is_active c = true ->
  evaluate c md (Some position) = Ret (Some s) ->
  first_exit_signal md position
    (List.filter is_active (before ++ c :: after)) = Some s.
Proof.
  intros Hb Hc Hs. induction Hb as [|b before Hpb _ IH];
    cbn [app List.filter].
  - rewrite Hc. cbn [first_exit_signal]. rewrite Hs. reflexivity.
  - destruct (is_active b) eqn:Eb; [|exact IH].
    cbn [first_exit_signal]. destruct Hpb as [Hpb | Hpb]; [congruence|].
    destruct (evaluate b md (Some position)) as [[?|]|?];
      [contradiction|exact IH|exact IH].
Qed.

(** X12.  [ConditionManager.evaluate_exit_conditions] returns a signal
    exactly when some enabled exit condition gives it and every condition
    configured before that one is disabled, answers [None] or raises: a
    failing or silent condition never hides a later one, and the call itself
    raises nothing. *)
Theorem exit_evaluation_skips_failing_conditions :
  forall (self : ConditionManager) (md : MarketData) (position : Position)
         (s : Signal),
    evaluate_exit_conditions self md position = Some s <->
    exists before c after,
      exit_conditions self = (before ++ c :: after)%list
      /\ Forall (passed_over md position) before
      /\ is_active c = true
      /\ evaluate c md (Some position) = Ret (Some s).
Proof.
  intros self md position s. rewrite evaluate_exit_conditions_filter. split.
  - apply first_exit_signal_inv.
  - intros (before & c & after & -> & Hb & Hc & Hs).
    apply first_exit_signal_skip; assumption.
Qed.

End ManagerSpec.

(** ** conditions/exit_condition_factory.py: the ladder's levels *)
Module LadderSpec.
Import Models PCS LadderTerms.

Lemma levels_of_entries_steps (steps : list StepEntry) (levels : list Level) :
  levels_of_entries steps = Ret levels ->
  map (fun lv => Some (step lv)) levels = map se_step steps
  /\ map enabled levels = map (fun e => default true (se_enabled e)) steps.
Proof.
  revert levels. induction steps as [|e steps IH]; intros levels;
    cbn [levels_of_entries].
  - intros [= <-]. split; reflexivity.
  - unfold level_of_entry.
    destruct (se_step e) as [n|] eqn:En; cbn [mbind result_bind];
      [|discriminate].
    destruct (levels_of_entries steps) as [lvs|]; cbn [mbind result_bind];
      [|discriminate].
    intros [= <-]. destruct (IH lvs eq_refl) as [Hs He].
    cbn [map step enabled]. rewrite Hs, He, En. split; reflexivity.
Qed.

Lemma levels_of_entries_missing_step (steps : list StepEntry) :
  (exists e, In e steps /\ se_step e = None) ->
  exists err, levels_of_entries steps = Raise err.
Proof.
  induction steps as [|e steps IH]; intros (x & Hin & Hx);
    [destruct Hin|].
  cbn [levels_of_entries]. unfold level_of_entry.
  destruct (se_step e) as [n|] eqn:En; cbn [mbind result_bind];
    [|eauto].
  destruct Hin as [<- | Hin]; [congruence|].
  destruct (IH (ex_intro _ x (conj Hin Hx))) as [err ->].
  cbn [mbind result_bind]. eauto.
Qed.

(** X13.  [_load_pcs_levels_from_config] never returns an empty ladder.
    When the configuration cannot be read, lists no step, or has an entry
    without a step number, the result is the twelve default levels, all
    enabled.  Otherwise there is one level per configured entry, in the
    configured order, with the entry's step number, and enabled unless the
    entry says otherwise. *)
Theorem load_pcs_levels_falls_back_to_defaults :
  forall pcs_steps : result (list StepEntry),
    _load_pcs_levels_from_config pcs_steps <> []
    /\ ((exists err, pcs_steps = Raise err)
        \/ pcs_steps = Ret []
        \/ (exists steps e,
              pcs_steps = Ret steps /\ In e steps /\ se_step e = None) ->
        _load_pcs_levels_from_config pcs_steps = default_levels)
    /\ (forall steps,
          pcs_steps = Ret steps -> steps <> [] ->
          Forall (fun e => se_step e <> None) steps ->
          let levels := _load_pcs_levels_from_config pcs_steps in
          map (fun lv => Some (step lv)) levels = map se_step steps
          /\ map enabled levels
             = map (fun e => default true (se_enabled e)) steps).
Proof.
  intros pcs_steps. unfold _load_pcs_levels_from_config.
  fold default_levels. split; [|split].
  - destruct (steps ← pcs_steps; levels_of_entries steps) as [[|lv lvs]|];
      discriminate.
  - intros [[err ->] | [-> | (steps & e & -> & Hin & He)]];
      [reflexivity|reflexivity|].
    cbn [mbind result_bind].
    destruct (levels_of_entries_missing_step steps) as [err ->]; eauto.
  - intros steps -> Hne Hall. cbv zeta. cbn [mbind result_bind].
    destruct (levels_of_entries steps) as [levels|err] eqn:El.
    + destruct (levels_of_entries_steps _ _ El) as [Hs He].
      destruct levels as [|lv lvs]; [|split; assumption].
      destruct steps; [congruence|discriminate Hs].
    + exfalso. clear Hne. revert err El.
      induction Hall as [|e steps He _ IH]; intros err;
        cbn [levels_of_entries]; [discriminate|].
      unfold level_of_entry. destruct (se_step e); [|congruence].
      cbn [mbind result_bind].
      destruct (levels_of_entries steps) as [lvs|err'];
        cbn [mbind result_bind]; [discriminate|].
      intros _. eapply IH. reflexivity.
Qed.

(** X14.  Without an open position the ladder gives no exit signal and
    raises nothing, whatever the market data: when no position is passed,
    when the position's size is not positive, and when no level is
    active. *)
Theorem pcs_needs_an_open_position :
  forall (now : Z) (self : PCSSystemCondition) (md : MarketData)
         (position : option Position),
    position = None
    \/ (exists p, position = Some p /\ (size p <= 0)%Q)
    \/ get_active_levels self = [] ->
    evaluate now self md position = Ret None.
Proof.
  intros now self md position [-> | [(p & -> & Hsz) | Hact]].
  - reflexivity.
  - unfold evaluate, BaseCondition._validate_position.
    apply Qleb_le in Hsz. rewrite Hsz. reflexivity.
  - unfold evaluate. destruct position as [p|]; [|reflexivity].
    destruct (negb _); [reflexivity|].
    destruct (calculate_pnl_percentage p); [|reflexivity].
    rewrite Hact. reflexivity.
Qed.

Lemma pcs_needs_an_open_position_witness :
  let flat := mkPosition "BTCUSDT" (SideOf LONG) 0 100 90 0 0 1 0 0 in
  (exists p, Some flat = Some p /\ (size p <= 0)%Q)
  /\ evaluate 0 (mkPCS "PCS" true [1] true [mkLevel 1 2 (-1) true])
       (mkMarketData "BTCUSDT" 90 [90%Q] [] [] 0 0) (Some flat)
     = Ret None.
Proof.
  cbv zeta. split; [eexists; split; [reflexivity|discriminate]|].
  apply pcs_needs_an_open_position. right. left.
  eexists. split; [reflexivity|discriminate].
Defined.

End LadderSpec.

(** ** conditions/entry/moving_average.py: what the signals carry *)
Module AverageSpec.
Import Models MovingAverage.

Ltac compare_cases :=
  unfold pymin, pymax, pyabs, Qgtb, Qgeb in *;
  repeat match goal with
         | |- context [Qltb ?a ?b] =>
             let E := fresh "E" in
             destruct (Qltb a b) eqn:E;
             [apply Qltb_lt in E | apply Qltb_false in E]
         end;
  try lra.

Lemma Signal_new_member_inv t sym p c src ts meta s :
  Signal_new (AMember t) sym p c src ts meta = Ret s ->
  s = mkSignal t sym p c src ts meta /\ (0 <= c <= 1)%Q.
Proof.
  unfold Signal_new. cbn [mbind result_bind].
  destruct (String.eqb sym ""); [discriminate|].
  destruct (Qleb p 0); [discriminate|].
  destruct (Qleb 0 c) eqn:E0; [|discriminate].
  destruct (Qleb c 1) eqn:E1; [|discriminate].
  cbn [andb negb]. intros [= <-]. apply Qleb_le in E0, E1. tauto.
Qed.

Lemma create_signal_inv now nm md t conf meta s :
  BaseCondition._create_signal now nm md (SignalType_value t) conf meta
  = Ret s ->
  s = mkSignal t (md_symbol md) (md_current_price md) conf nm now meta.
Proof.
  unfold BaseCondition._create_signal.
  assert (E : SignalType_of (SignalType_value t) = Ret t)
    by (destruct t; reflexivity).
  rewrite E. cbn [mbind result_bind]. intros H.
  apply Signal_new_member_inv in H. tauto.
Qed.

(** X15.  [MovingAverageCondition._calculate_moving_average] does not use
    its period beyond the length check: with at least [period] and at least
    four close prices, the value is the mean of the last four close
    prices. *)
Theorem moving_average_is_mean_of_last_four :
  forall (self : MovingAverageCondition) (closes : list Q),
    period self <= Z.of_nat (length closes) ->
    (4 <= length closes)%nat ->
    _calculate_moving_average self closes
    = Some (pysum (skipn (length closes - 4) closes) / 4)%Q.
Proof.
  intros self closes Hp H4. unfold _calculate_moving_average.
  assert (E : (Z.of_nat (length closes) <? period self) = false)
    by (apply Z.ltb_ge; lia).
  rewrite E.
  destruct (StatsSpec.slice_from_last 4 closes) as [Hs Hl]; [lia|].
  change (Z.opp 4) with (Z.neg 4) in Hs, Hl. cbv zeta.
  rewrite Hl, Hs. reflexivity.
Qed.

Lemma moving_average_is_mean_of_last_four_witness :
  let self := MovingAverageCondition_init true (7 # 10) 5 "close_above" in
  let closes := [1; 2; 3; 4; 5; 6]%Q in
  period self <= Z.of_nat (length closes) /\ (4 <= length closes)%nat
  /\ exists v, _calculate_moving_average self closes = Some v
               /\ (v == 9 # 2)%Q.
Proof.
  cbv zeta. split; [discriminate|]. split; [simpl; lia|].
  eexists. split.
  - apply (moving_average_is_mean_of_last_four
             (MovingAverageCondition_init true (7 # 10) 5 "close_above")
             [1; 2; 3; 4; 5; 6]%Q); [discriminate|simpl; lia].
  - reflexivity.
Defined.

Lemma calculate_confidence_range price ma_value direction :
  (0 <= _calculate_confidence price ma_value direction <= 9 # 10)%Q.
Proof.
  unfold _calculate_confidence.
  destruct (pydiv _ _) as [r|]; [|split; discriminate].
  set (b := pymin (r * 100 / 2) (8 # 10)).
  assert (Hb : (b <= 8 # 10)%Q) by (subst b; compare_cases).
  destruct (_ && _); [|destruct (_ && _)]; compare_cases.
Qed.

Lemma crossover_confidence_range short_ma long_ma :
  (0 <= _calculate_crossover_confidence short_ma long_ma <= 9 # 10)%Q.
Proof.
  unfold _calculate_crossover_confidence.
  destruct (pydiv _ _) as [r|]; [|split; discriminate].
  set (b := pymin (r * 100 / 1) (9 # 10)).
  assert (Hb : (b <= 9 # 10)%Q) by (subst b; compare_cases).
  compare_cases.
Qed.

Lemma evaluate_condition_inv now self md ma_value s :
  _evaluate_condition now self md ma_value = Ret (Some s) ->
  (ma_confidence_threshold self <= confidence s <= 9 # 10)%Q
  /\ price s = md_current_price md
  /\ symbol s = md_symbol md
  /\ ((type s = BUY
       /\ (condition_type self = "close_above"
           \/ condition_type self = "open_above"))
      \/ (type s = SELL
          /\ (condition_type self = "close_below"
              \/ condition_type self = "open_below"))).
Proof.
  unfold _evaluate_condition.
  set (cur := md_current_price md).
  set (opn := default cur (last (close_prices md))).
  assert (Hgen : forall t conf,
    (0 <= conf <= 9 # 10)%Q ->
    (if Qgeb conf (ma_confidence_threshold self)
     then
       s0 ← BaseCondition._create_signal now (ma_name self) md
              (SignalType_value t) conf
              (<["ma_value" := MNum ma_value]>
               (<["price_vs_ma" := MNum (cur - ma_value)]>
               (<["condition_type" := MStr (condition_type self)]>
               (<["period" := MInt (period self)]> ∅))));
       Ret (Some s0)
     else Ret None) = Ret (Some s) ->
    (ma_confidence_threshold self <= confidence s <= 9 # 10)%Q
    /\ price s = cur /\ symbol s = md_symbol md /\ type s = t).
  { intros t conf Hc. destruct (Qgeb conf _) eqn:Eg; [|discriminate].
    destruct (BaseCondition._create_signal _ _ _ _ _ _) as [s0|] eqn:Es;
      cbn [mbind result_bind]; [|discriminate].
    intros [= <-]. apply create_signal_inv in Es. subst s0.
    unfold Qgeb in Eg. apply Qleb_le in Eg. cbn. tauto. }
  destruct (String.eqb_spec (condition_type self) "close_above") as [Ec|_].
  { destruct (Qgtb cur ma_value); [|discriminate]. intros H.
    apply Hgen in H; [|apply calculate_confidence_range]. intuition. }
  destruct (String.eqb_spec (condition_type self) "close_below") as [Ec|_].
  { destruct (Qltb cur ma_value); [|discriminate]. intros H.
    apply Hgen in H; [|apply calculate_confidence_range]. intuition. }
  destruct (String.eqb_spec (condition_type self) "open_above") as [Ec|_].
  { destruct (Qgtb opn ma_value); [|discriminate]. intros H.
    apply Hgen in H; [|apply calculate_confidence_range]. intuition. }
  destruct (String.eqb_spec (condition_type self) "open_below") as [Ec|_].
  { destruct (Qltb opn ma_value); [|discriminate]. intros H.
    apply Hgen in H; [|apply calculate_confidence_range]. intuition. }
  discriminate.
Qed.

(** X16.  A signal of [MovingAverageCondition.evaluate] is a BUY for the
    condition types "close_above" and "open_above" and a SELL for
    "close_below" and "open_below"; it is priced at the current price and
    its confidence lies between the condition's confidence threshold and
    0.9.  With any other condition type, or a threshold above 0.9, the
    condition never gives a signal. *)
Theorem moving_average_signal_shape :
  forall (now : Z) (self : MovingAverageCondition) (md : MarketData),
    (forall s self',
       evaluate now self md = (Some s, self') ->
       (ma_confidence_threshold self <= confidence s <= 9 # 10)%Q
       /\ price s = md_current_price md
       /\ symbol s = md_symbol md
       /\ ((type s = BUY
            /\ (condition_type self = "close_above"
                \/ condition_type self = "open_above"))
           \/ (type s = SELL
               /\ (condition_type self = "close_below"
                   \/ condition_type self = "open_below"))))
    /\ ((9 # 10 < ma_confidence_threshold self)%Q ->
        fst (evaluate now self md) = None).
Proof.
  intros now self md.
  assert (Hinv : forall s self',
            evaluate now self md = (Some s, self') ->
            exists ma_value,
              _evaluate_condition now self md ma_value = Ret (Some s)).
  { intros s self'. unfold evaluate, evaluate_body.
    destruct (negb (ma_is_enabled self)); [discriminate|].
    destruct (negb (BaseCondition._validate_market_data md));
      [discriminate|].
    destruct (_ <? _); [discriminate|].
    destruct (_calculate_moving_average self (close_prices md)) as [v|];
      [|discriminate].
    destruct (_evaluate_condition now self md v) as [sig|] eqn:Ev;
      cbn [mbind result_bind]; [|discriminate].
    intros [= -> _]. eauto. }
  split.
  - intros s self' Hev. destruct (Hinv s self' Hev) as [v Hv].
    exact (evaluate_condition_inv _ _ _ _ _ Hv).
  - intros Hthr.
    destruct (evaluate now self md) as [[s|] self'] eqn:Hev; [|reflexivity].
    destruct (Hinv s self' eq_refl) as [v Hv].
    apply evaluate_condition_inv in Hv. lra.
Qed.

Lemma calculate_ma_same prices period a b :
  _calculate_ma prices period = Ret (Some a) ->
  _calculate_ma prices period = Ret (Some b) -> a = b.
Proof. congruence. Qed.

Lemma check_crossover_inv now self md short_ma long_ma s :
  _check_crossover now self md short_ma long_ma = Ret (Some s) ->
  (mtf_confidence_threshold self <= confidence s <= 9 # 10)%Q
  /\ price s = md_current_price md
  /\ ((type s = BUY /\ (long_ma < short_ma)%Q)
      \/ (type s = SELL /\ (short_ma < long_ma)%Q)).
Proof.
  unfold _check_crossover.
  pose proof (crossover_confidence_range short_ma long_ma) as Hr.
  destruct (Qgtb short_ma long_ma) eqn:Eg.
  - destruct (Qgeb _ _) eqn:Et; [|discriminate].
    destruct (BaseCondition._create_signal _ _ _ _ _ _) as [s0|] eqn:Es;
      cbn [mbind result_bind]; [|discriminate].
    intros [= <-]. apply create_signal_inv in Es. subst s0.
    unfold Qgtb in Eg. apply Qltb_lt in Eg.
    unfold Qgeb in Et. apply Qleb_le in Et. cbn. tauto.
  - destruct (Qltb short_ma long_ma) eqn:El; [|discriminate].
    destruct (Qgeb _ _) eqn:Et; [|discriminate].
    destruct (BaseCondition._create_signal _ _ _ _ _ _) as [s0|] eqn:Es;
      cbn [mbind result_bind]; [|discriminate].
    intros [= <-]. apply create_signal_inv in Es. subst s0.
    apply Qltb_lt in El.
    unfold Qgeb in Et. apply Qleb_le in Et. cbn. tauto.
Qed.

(** X17.  A signal of [MultiTimeframeMACondition.evaluate] is a BUY when the
    short average is above the long one and a SELL when it is below, with a
    confidence between the confidence threshold and 0.9.  So a condition
    whose two periods are equal, or whose threshold is above 0.9, never
    gives a signal. *)
Theorem crossover_signal_shape :
  forall (now : Z) (self : MultiTimeframeMACondition) (md : MarketData),
    (forall s self',
       mtf_evaluate now self md = (Some s, self') ->
       exists short_ma long_ma,
         _calculate_ma (close_prices md) (short_period self)
         = Ret (Some short_ma)
         /\ _calculate_ma (close_prices md) (long_period self)
            = Ret (Some long_ma)
         /\ (mtf_confidence_threshold self <= confidence s <= 9 # 10)%Q
         /\ price s = md_current_price md
         /\ ((type s = BUY /\ (long_ma < short_ma)%Q)
             \/ (type s = SELL /\ (short_ma < long_ma)%Q)))
    /\ (short_period self = long_period self ->
        fst (mtf_evaluate now self md) = None)
    /\ ((9 # 10 < mtf_confidence_threshold self)%Q ->
        fst (mtf_evaluate now self md) = None).
Proof.
  intros now self md.
  assert (Hinv : forall s self',
     mtf_evaluate now self md = (Some s, self') ->
     exists short_ma long_ma,
       _calculate_ma (close_prices md) (short_period self)
       = Ret (Some short_ma)
       /\ _calculate_ma (close_prices md) (long_period self)
          = Ret (Some long_ma)
       /\ _check_crossover now self md short_ma long_ma = Ret (Some s)).
  { intros s self'. unfold mtf_evaluate, mtf_evaluate_body.
    destruct (_ || _); [discriminate|].
    destruct (_ <? _); [discriminate|].
    destruct (_calculate_ma (close_prices md) (short_period self))
      as [[a|]|]; cbn [mbind result_bind].
    2,3: destruct (_calculate_ma (close_prices md) (long_period self))
           as [[b|]|]; cbn [mbind result_bind]; discriminate.
    destruct (_calculate_ma (close_prices md) (long_period self))
      as [[b|]|]; cbn [mbind result_bind]; [|discriminate|discriminate].
    destruct (_check_crossover now self md a b) as [sig|] eqn:Ec;
      cbn [mbind result_bind]; [|discriminate].
    intros [= -> _]. exists a, b. auto. }
  split; [|split].
  - intros s self' Hev.
    destruct (Hinv s self' Hev) as (a & b & Ha & Hb & Hc).
    exists a, b. apply check_crossover_inv in Hc. tauto.
  - intros Heq.
    destruct (mtf_evaluate now self md) as [[s|] self'] eqn:Hev;
      [|reflexivity].
    destruct (Hinv s self' eq_refl) as (a & b & Ha & Hb & Hc).
    rewrite Heq in Ha. assert (a = b) by congruence. subst b.
    apply check_crossover_inv in Hc. exfalso.
    destruct Hc as (_ & _ & [[_ H] | [_ H]]);
      exact (Qlt_irrefl _ H).
  - intros Hthr.
    destruct (mtf_evaluate now self md) as [[s|] self'] eqn:Hev;
      [|reflexivity].
    destruct (Hinv s self' eq_refl) as (a & b & Ha & Hb & Hc).
    apply check_crossover_inv in Hc. lra.
Qed.

(** X18.  [MultiTimeframeMACondition.evaluate] changes nothing but the
    evaluation statistics: either the condition is left as it was and the
    answer is [None] (disabled, bad or short data, or an exception), or the
    evaluation counter grows by one, the evaluation time is the clock's, and
    [last_signal] is the answer just returned. *)
Theorem crossover_evaluation_updates_statistics :
  forall (now : Z) (self self' : MultiTimeframeMACondition)
         (md : MarketData) (answer : option Signal),
    mtf_evaluate now self md = (answer, self') ->
    (answer = None /\ self' = self)
    \/ (self' = mkMTF (mtf_name self) (mtf_is_enabled self)
                  (mtf_confidence_threshold self) (short_period self)
                  (long_period self)
                  (BaseCondition.mkStats
                     (BaseCondition.evaluation_count (mtf_stats self) + 1)
                     now answer)).
Proof.
  intros now self self' md answer. unfold mtf_evaluate, mtf_evaluate_body.
  destruct (_ || _); [intros [= <- <-]; now left|].
  destruct (_ <? _); [intros [= <- <-]; now left|].
  destruct (_calculate_ma (close_prices md) (short_period self))
    as [[a|]|]; cbn [mbind result_bind].
  2,3: destruct (_calculate_ma (close_prices md) (long_period self))
         as [[b|]|]; cbn [mbind result_bind]; intros [= <- <-]; now left.
  destruct (_calculate_ma (close_prices md) (long_period self))
    as [[b|]|]; cbn [mbind result_bind];
    [|intros [= <- <-]; now left|intros [= <- <-]; now left].
  destruct (_check_crossover now self md a b) as [sig|];
    cbn [mbind result_bind]; [|intros [= <- <-]; now left].
  intros [= <- <-]. right. reflexivity.
Qed.

Lemma crossover_evaluation_updates_statistics_witness :
  let self := mkMTF "MTF" true (1 # 10) 2 4 (BaseCondition.mkStats 0 0 None) in
  let md := mkMarketData "BTCUSDT" 104 [100; 100; 102; 104]%Q [] [] 0 0 in
  let r := mtf_evaluate 5 self md in
  (fst r = None /\ snd r = self)
  \/ snd r = mkMTF "MTF" true (1 # 10) 2 4
               (BaseCondition.mkStats (0 + 1) 5 (fst r)).
Proof.
  cbv zeta.
  apply (crossover_evaluation_updates_statistics 5
           (mkMTF "MTF" true (1 # 10) 2 4 (BaseCondition.mkStats 0 0 None))
           _ (mkMarketData "BTCUSDT" 104 [100; 100; 102; 104]%Q [] [] 0 0)).
  apply surjective_pairing.
Defined.

End AverageSpec.

(** ** conditions/entry/price_channel.py: what a breakout signal carries *)
Module BreakoutSpec.
Import Models PriceChannel PriceChannelTerms.

Lemma breakout_confidence_range cur line kind :
  (0 <= _calculate_breakout_confidence cur line kind <= 8 # 10)%Q.
Proof.
  unfold _calculate_breakout_confidence.
  destruct (if String.eqb kind "upper" then _ else _) as [pct|];
    [|split; discriminate].
  set (b := pymin (pct / 2) (8 # 10)).
  assert (Hb : (b <= 8 # 10)%Q) by (subst b; AverageSpec.compare_cases).
  clearbody b. set (m := pymax (3 # 10) b).
  assert (Hm : (3 # 10 <= m <= 8 # 10)%Q)
    by (subst m; AverageSpec.compare_cases).
  clearbody m. AverageSpec.compare_cases.
Qed.

Lemma breakout_signal_shape now self md ch kind dir conf num line s :
  breakout_signal now self md ch kind dir conf num line = Ret s ->
  confidence s = conf /\ price s = md_current_price md
  /\ type s = (if String.eqb dir "buy" then BUY else SELL)
  /\ metadata s !! "breakout_type" = Some (MStr kind).
Proof.
  unfold breakout_signal.
  destruct (pydiv num line); cbn [mbind result_bind]; [|discriminate].
  intros H. apply AverageSpec.create_signal_inv in H. subst s.
  cbn. repeat split.
Qed.

Lemma lower_check_shape now self md ch s :
  lower_breakout_check now self md ch = Ret (Some s) ->
  (confidence_threshold self <= confidence s <= 8 # 10)%Q
  /\ price s = md_current_price md
  /\ metadata s !! "breakout_type" = Some (MStr "lower")
  /\ type s = (if String.eqb (lower_breakout self) "buy" then BUY else SELL).
Proof.
  unfold lower_breakout_check.
  destruct (negb _); [|discriminate].
  destruct (Qltb _ _); [|discriminate].
  destruct (Qgeb _ _) eqn:Eg; [|discriminate].
  destruct (breakout_signal _ _ _ _ _ _ _ _ _) as [s'|] eqn:Es;
    cbn [mbind result_bind]; [|discriminate].
  intros [= <-]. apply breakout_signal_shape in Es.
  destruct Es as (Hc & Hp & Ht & Hm).
  unfold Qgeb in Eg. apply Qleb_le in Eg. rewrite Hc.
  pose proof (breakout_confidence_range (md_current_price md) (lower ch)
                "lower").
  tauto.
Qed.

Lemma evaluate_breakout_shape now self md ch s :
  _evaluate_breakout now self md ch = Ret (Some s) ->
  (confidence_threshold self <= confidence s <= 8 # 10)%Q
  /\ price s = md_current_price md
  /\ ((metadata s !! "breakout_type" = Some (MStr "upper")
       /\ type s = (if String.eqb (upper_breakout self) "buy"
                    then BUY else SELL))
      \/ (metadata s !! "breakout_type" = Some (MStr "lower")
          /\ type s = (if String.eqb (lower_breakout self) "buy"
                       then BUY else SELL))).
Proof.
  unfold _evaluate_breakout.
  assert (Hlow : lower_breakout_check now self md ch = Ret (Some s) ->
            (confidence_threshold self <= confidence s <= 8 # 10)%Q
            /\ price s = md_current_price md
            /\ ((metadata s !! "breakout_type" = Some (MStr "upper")
                 /\ type s = (if String.eqb (upper_breakout self) "buy"
                              then BUY else SELL))
                \/ (metadata s !! "breakout_type" = Some (MStr "lower")
                    /\ type s = (if String.eqb (lower_breakout self) "buy"
                                 then BUY else SELL)))).
  { intros H. apply lower_check_shape in H. tauto. }
  destruct (negb _); [|exact Hlow].
  destruct (Qgtb _ _); [|exact Hlow].
  destruct (Qgeb _ _) eqn:Eg; [|exact Hlow].
  destruct (breakout_signal _ _ _ _ _ _ _ _ _) as [s'|] eqn:Es;
    cbn [mbind result_bind]; [|discriminate].
  intros [= <-]. apply breakout_signal_shape in Es.
  destruct Es as (Hc & Hp & Ht & Hm).
  unfold Qgeb in Eg. apply Qleb_le in Eg. rewrite Hc.
  pose proof (breakout_confidence_range (md_current_price md) (upper ch)
                "upper").
  tauto.
Qed.

(** X19.  A signal of [PriceChannelCondition.evaluate] is priced at the
    current price, its confidence lies between the confidence threshold and
    0.8, and its direction follows the configured reaction of the line that
    broke: BUY when that setting is "buy", SELL for any other setting.  A
    condition whose confidence threshold is above 0.8 never gives a
    signal. *)
Theorem breakout_signal_direction_and_confidence :
  forall (now : Z) (self : PriceChannelCondition) (md : MarketData),
    (forall s self',
       evaluate now self md = (Some s, self') ->
       (confidence_threshold self <= confidence s <= 8 # 10)%Q
       /\ price s = md_current_price md
       /\ ((metadata s !! "breakout_type" = Some (MStr "upper")
            /\ type s = (if String.eqb (upper_breakout self) "buy"
                         then BUY else SELL))
           \/ (metadata s !! "breakout_type" = Some (MStr "lower")
               /\ type s = (if String.eqb (lower_breakout self) "buy"
                            then BUY else SELL))))
    /\ ((8 # 10 < confidence_threshold self)%Q ->
        fst (evaluate now self md) = None).
Proof.
  intros now self md. split.
  - intros s self' Hev.
    destruct (PriceChannelSpec.evaluate_inv _ _ _ _ _ Hev) as (ch & _ & Hb).
    exact (evaluate_breakout_shape _ _ _ _ _ Hb).
  - intros Hthr.
    destruct (evaluate now self md) as [[s|] self'] eqn:Hev; [|reflexivity].
    destruct (PriceChannelSpec.evaluate_inv _ _ _ _ _ Hev) as (ch & _ & Hb).
    apply evaluate_breakout_shape in Hb. lra.
Qed.

Lemma percentage_for_confidence pct t :
  (3 # 10 < t)%Q -> (t <= confidence_of_percentage pct)%Q ->
  (2 * t <= pct)%Q.
Proof.
  unfold confidence_of_percentage. intros Ht Hc.
  set (b := pymin (pct / 2) (8 # 10)) in *.
  set (m := pymax (3 # 10) b) in *.
  assert (Hm : (t <= m)%Q)
    by (clearbody m; revert Hc; AverageSpec.compare_cases).
  assert (Hmin : (t <= b)%Q)
    by (subst m; clearbody b; revert Hm; AverageSpec.compare_cases).
  assert (Hhalf : (t <= pct / 2)%Q)
    by (subst b; revert Hmin; AverageSpec.compare_cases).
  assert (Hmul : (t * 2 <= pct / 2 * 2)%Q)
    by (apply Qmult_le_compat_r; [exact Hhalf|discriminate]).
  assert (Heq : (pct / 2 * 2 == pct)%Q) by (field).
  rewrite Heq in Hmul. lra.
Qed.

Lemma excess_of_percentage (d line k : Q) :
  (0 < line)%Q -> (k <= d / line * 100)%Q -> (line * (k / 100) <= d)%Q.
Proof.
  intros Hl Hk.
  assert (Hne : ~ (line == 0)%Q) by (intros H; rewrite H in Hl; discriminate).
  assert (H1 : (k / 100 <= d / line)%Q).
  { apply Qle_shift_div_r; [reflexivity|]. exact Hk. }
  assert (H2 : (k / 100 * line <= d / line * line)%Q)
    by (apply Qmult_le_compat_r; [exact H1|apply Qlt_le_weak; exact Hl]).
  assert (H3 : (d / line * line == d)%Q) by (field; exact Hne).
  rewrite H3 in H2. lra.
Qed.

(** X20.  With a confidence threshold [t] above 0.3 the breakout threshold
    is not what decides: a signal means that the price is beyond a positive
    channel line by at least [2 t] percent of the line (1.4 % for the
    default threshold 0.7). *)
Theorem breakout_needs_twice_the_confidence_threshold :
  forall (now : Z) (self self' : PriceChannelCondition) (md : MarketData)
         (s : Signal),
    (3 # 10 < confidence_threshold self)%Q ->
    evaluate now self md = (Some s, self') ->
    exists ch,
      _calculate_price_channel self md = Some ch
      /\ ((metadata s !! "breakout_type" = Some (MStr "upper")
           /\ ((0 < upper ch)%Q ->
               (upper ch * (1 + 2 * confidence_threshold self / 100)
                <= md_current_price md)%Q))
          \/ (metadata s !! "breakout_type" = Some (MStr "lower")
              /\ ((0 < lower ch)%Q ->
                  (md_current_price md
                   <= lower ch * (1 - 2 * confidence_threshold self / 100))%Q))).
Proof.
  intros now self self' md s Hthr Hev.
  destruct (PriceChannelSpec.evaluate_inv _ _ _ _ _ Hev) as (ch & Hch & Hb).
  exists ch. split; [exact Hch|].
  apply PriceChannelSpec.evaluate_breakout_inv in Hb.
  destruct Hb as [[(_ & _ & Hc & Hm) | (_ & _ & Hc & Hm)] Hge].
  - left. split; [exact Hm|]. intros Hpos.
    assert (Hne : ~ (upper ch == 0)%Q)
      by (intros H; rewrite H in Hpos; discriminate).
    rewrite Hc, (PriceChannelSpec.breakout_confidence_upper _ _ Hne) in Hge.
    apply percentage_for_confidence in Hge; [|exact Hthr].
    apply excess_of_percentage in Hge; [|exact Hpos].
    lra.
  - right. split; [exact Hm|]. intros Hpos.
    assert (Hne : ~ (lower ch == 0)%Q)
      by (intros H; rewrite H in Hpos; discriminate).
    rewrite Hc, (PriceChannelSpec.breakout_confidence_lower _ _ Hne) in Hge.
    apply percentage_for_confidence in Hge; [|exact Hthr].
    apply excess_of_percentage in Hge; [|exact Hpos].
    lra.
Qed.

Lemma breakout_needs_twice_the_confidence_threshold_witness :
  let self := PriceChannelCondition_init true (7 # 10) 10 "buy" "sell"
                (1 # 1000) in
  let md := PriceChannelTerms.ranging_market 103 in
  exists s self' ch,
    evaluate 0 self md = (Some s, self')
    /\ _calculate_price_channel self md = Some ch
    /\ ((metadata s !! "breakout_type" = Some (MStr "upper")
         /\ ((0 < upper ch)%Q ->
             (upper ch * (1 + 2 * confidence_threshold self / 100)
              <= md_current_price md)%Q))
        \/ (metadata s !! "breakout_type" = Some (MStr "lower")
            /\ ((0 < lower ch)%Q ->
                (md_current_price md
                 <= lower ch * (1 - 2 * confidence_threshold self / 100))%Q))).
Proof.
  cbv zeta.
  assert (Ev : exists s self',
             evaluate 0
               (PriceChannelCondition_init true (7 # 10) 10 "buy" "sell"
                  (1 # 1000))
               (PriceChannelTerms.ranging_market 103) = (Some s, self'))
    by (vm_compute; eexists; eexists; reflexivity).
  destruct Ev as (s & self' & Ev).
  destruct (breakout_needs_twice_the_confidence_threshold 0
              (PriceChannelCondition_init true (7 # 10) 10 "buy" "sell"
                 (1 # 1000))
              self' (PriceChannelTerms.ranging_market 103) s)
    as (ch & Hch & Hside); [reflexivity|exact Ev|].
  exists s, self', ch. split; [exact Ev|]. split; [exact Hch|exact Hside].
Defined.

End BreakoutSpec.

(** ** risk/risk_manager.py: counters, position cap and price levels *)
Module RiskMoreSpec.
Import Models Risk RiskTools RiskTerms.

Lemma pyabs_nonneg (x : Q) : (0 <= pyabs x)%Q.
Proof.
  unfold pyabs. destruct (Qltb x 0) eqn:E;
    [apply Qltb_lt in E | apply Qltb_false in E]; lra.
Qed.

(** X21.  In every state a [RiskManager] can reach the daily trade counter
    and the daily loss are non-negative: the counter only grows by one per
    opened position, the loss only grows by the size of a negative PnL, and
    both go back to zero on a reset. *)
Theorem risk_counters_are_never_negative :
  forall self : RiskManager,
    reachable self -> 0 <= daily_trades self /\ (0 <= daily_loss self)%Q.
Proof.
  induction 1 as [config today | today self signal _ IH | self position _ IH
                  | self position pnl _ IH | today self _ IH
                  | self value _ IH].
  - split; [reflexivity|discriminate].
  - rewrite RiskSpec.validate_entry_signal_state. unfold _check_daily_trades.
    destruct (last_reset_date self <? today); cbn [snd];
      [split; [reflexivity|discriminate]|exact IH].
  - cbn. split; [lia|tauto].
  - unfold update_position_closed. cbn [daily_trades daily_loss set_counters].
    split; [tauto|]. pose proof (pyabs_nonneg pnl).
    destruct (Qltb pnl 0); lra.
  - split; [reflexivity|discriminate].
  - exact IH.
Qed.

Lemma risk_counters_are_never_negative_witness :
  reachable manager_at_cap /\ 0 <= daily_trades manager_at_cap.
Proof.
  split; [exact RiskSpec.manager_at_cap_reachable|].
  apply (risk_counters_are_never_negative manager_at_cap).
  exact RiskSpec.manager_at_cap_reachable.
Defined.

(** X22.  While the number of active positions has reached
    [max_positions] the gate answers [False] for every signal, on any date,
    without raising, and leaves the list of active positions as it is. *)
Theorem full_book_rejects_entry :
  forall (today : Z) (self : RiskManager) (signal : Signal),
    max_positions self <= Z.of_nat (length (active_positions self)) ->
    fst (validate_entry_signal today self signal) = Ret false
    /\ active_positions (snd (validate_entry_signal today self signal))
       = active_positions self.
Proof.
  intros today self signal Hfull.
  unfold validate_entry_signal, _check_daily_trades, _check_max_positions.
  destruct (last_reset_date self <? today);
    cbn [set_counters daily_trades daily_max_trades active_positions
         max_positions];
    match goal with
    | |- context [negb (?a <? ?b)] => destruct (a <? b)
    end; cbn [negb fst snd]; try (split; reflexivity);
    cbn [active_positions max_positions];
    assert (E : (Z.of_nat (length (active_positions self))
                 <? max_positions self) = false)
      by (apply Z.ltb_ge; exact Hfull);
    rewrite E; split; reflexivity.
Qed.

Lemma full_book_rejects_entry_witness :
  let self :=
    update_position_opened
      (update_position_opened
         (update_position_opened (RiskManager_init default_config 0)
            some_position) some_position) some_position in
  max_positions self <= Z.of_nat (length (active_positions self))
  /\ fst (validate_entry_signal 5 self some_signal) = Ret false.
Proof.
  cbv zeta. split; [discriminate|].
  apply full_book_rejects_entry. discriminate.
Defined.

Lemma py_index_in_range {A : Type} (l : list A) (i : Z) :
  0 <= i < Z.of_nat (length l) ->
  py_index l i = nth_error l (Z.to_nat i).
Proof.
  intros H. unfold py_index.
  assert (E1 : (i <? 0) = false) by (apply Z.ltb_ge; lia).
  rewrite E1, E1.
  assert (E2 : (Z.of_nat (length l) <=? i) = false)
    by (apply Z.leb_gt; lia).
  rewrite E2. reflexivity.
Qed.

Lemma py_index_negative {A : Type} (l : list A) (i : Z) :
  - Z.of_nat (length l) <= i < 0 ->
  py_index l i = nth_error l (Z.to_nat (i + Z.of_nat (length l))).
Proof.
  intros H. unfold py_index.
  assert (E1 : (i <? 0) = true) by (apply Z.ltb_lt; lia).
  rewrite E1.
  assert (E2 : (i + Z.of_nat (length l) <? 0) = false)
    by (apply Z.ltb_ge; lia).
  assert (E3 : (Z.of_nat (length l) <=? i + Z.of_nat (length l)) = false)
    by (apply Z.leb_gt; lia).
  rewrite E2, E3. reflexivity.
Qed.

(** X23.  For a level of the table (1 to its length) with positive stop and
    profit percentages and a positive entry price, the stop-loss price of a
    long position is below the entry price and its take-profit price above;
    for any side other than "LONG" it is the other way round. *)
Theorem stop_and_profit_prices_bracket_entry :
  forall (A : Type) (stop_levels : list (A * Q * Q)) (entry_price : Q)
         (side : string) (level : Z) (tag : A) (profit stop : Q),
    1 <= level <= Z.of_nat (length stop_levels) ->
    nth_error stop_levels (Z.to_nat (level - 1)) = Some (tag, profit, stop) ->
    (0 < entry_price)%Q -> (0 < profit)%Q -> (0 < stop)%Q ->
    exists sl tp,
      get_stop_loss_price true stop_levels entry_price side level
      = Returned (Some sl)
      /\ get_take_profit_price true stop_levels entry_price side level
         = Returned (Some tp)
      /\ (if String.eqb side "LONG"
          then (sl < entry_price < tp)%Q
          else (tp < entry_price < sl)%Q).
Proof.
  intros A stop_levels entry side level tag profit stop Hl Hn He Hp Hs.
  unfold get_stop_loss_price, get_take_profit_price.
  assert (E : (Z.of_nat (length stop_levels) <? level) = false)
    by (apply Z.ltb_ge; lia).
  rewrite E. cbn [negb orb].
  rewrite py_index_in_range by lia. rewrite Hn.
  assert (Hps : (0 < entry * (profit / 100))%Q).
  { apply Qmult_lt_0_compat; [exact He|].
    apply Qlt_shift_div_l; [reflexivity|]. lra. }
  assert (Hss : (0 < entry * (stop / 100))%Q).
  { apply Qmult_lt_0_compat; [exact He|].
    apply Qlt_shift_div_l; [reflexivity|]. lra. }
  destruct (String.eqb side "LONG"); eexists; eexists;
    (split; [reflexivity|]); (split; [reflexivity|]); lra.
Qed.

Lemma stop_and_profit_prices_bracket_entry_witness :
  exists sl tp,
    get_stop_loss_price true [("1", 2%Q, 1%Q)] 100 "LONG" 1
    = Returned (Some sl)
    /\ get_take_profit_price true [("1", 2%Q, 1%Q)] 100 "LONG" 1
       = Returned (Some tp)
    /\ (sl < 100 < tp)%Q.
Proof.
  apply (stop_and_profit_prices_bracket_entry string [("1", 2%Q, 1%Q)] 100
           "LONG" 1 "1" 2 1); try reflexivity. simpl. lia.
Defined.

(** X24.  Levels outside the table: a level above the table's length, or a
    switched-off [auto_stop], gives [None]; level 0 silently uses the last
    level of the table (Python's index -1); a level below [1 - length]
    raises [IndexError]. *)
Theorem stop_price_outside_the_table :
  forall (A : Type) (auto_stop : bool) (stop_levels : list (A * Q * Q))
         (entry_price : Q) (side : string) (level : Z),
    (auto_stop = false \/ Z.of_nat (length stop_levels) < level ->
     get_stop_loss_price auto_stop stop_levels entry_price side level
     = Returned None)
    /\ (auto_stop = true -> stop_levels <> [] ->
        get_stop_loss_price auto_stop stop_levels entry_price side 0
        = get_stop_loss_price auto_stop stop_levels entry_price side
            (Z.of_nat (length stop_levels)))
    /\ (auto_stop = true -> level < 1 - Z.of_nat (length stop_levels) ->
        get_stop_loss_price auto_stop stop_levels entry_price side level
        = IndexError).
Proof.
  intros A auto_stop stop_levels entry side level. split; [|split].
  - intros [-> | H]; unfold get_stop_loss_price; [reflexivity|].
    apply Z.ltb_lt in H. rewrite H, orb_true_r. reflexivity.
  - intros -> Hne. unfold get_stop_loss_price. cbn [negb orb].
    assert (Hlen : 0 < Z.of_nat (length stop_levels))
      by (destruct stop_levels; [congruence|simpl; lia]).
    assert (E0 : (Z.of_nat (length stop_levels) <? 0) = false)
      by (apply Z.ltb_ge; lia).
    rewrite E0, Z.ltb_irrefl.
    assert (Hidx : py_index stop_levels (0 - 1)
                   = py_index stop_levels (Z.of_nat (length stop_levels) - 1)).
    { rewrite (py_index_in_range stop_levels
                 (Z.of_nat (length stop_levels) - 1)) by lia.
      rewrite (py_index_negative stop_levels (0 - 1)) by lia.
      f_equal. lia. }
    rewrite Hidx. reflexivity.
  - intros -> Hlow. unfold get_stop_loss_price. cbn [negb orb].
    assert (E : (Z.of_nat (length stop_levels) <? level) = false)
      by (apply Z.ltb_ge; lia).
    rewrite E. unfold py_index.
    assert (E1 : (level - 1 <? 0) = true) by (apply Z.ltb_lt; lia).
    rewrite E1.
    assert (E2 : (level - 1 + Z.of_nat (length stop_levels) <? 0) = true)
      by (apply Z.ltb_lt; lia).
    rewrite E2. reflexivity.
Qed.

End RiskMoreSpec.

(** ** core/trading_engine.py: entry signals in OR mode and behind the gate *)
Module GateSpec.
Import Models BaseCondition Engine.

Lemma or_signals_ungated today signals :
  or_signals today None signals
  = (Ret (map (set_meta "combination" (MStr "OR")) signals), None).
Proof.
  induction signals as [|s rest IH]; cbn [or_signals risk_gate map];
    [reflexivity|].
  rewrite IH. reflexivity.
Qed.

Lemma entry_loop_ungated today self cache :
  combination_mode self <> "AND" ->
  entry_loop today self None cache
  = (Ret (flat_map
            (fun entry : string * MarketData =>
               map (set_meta "combination" (MStr "OR"))
                 (condition_signals (fst entry) (snd entry)
                    (entry_conditions self))) cache), None).
Proof.
  intros Hmode. induction cache as [|[ex md] cache IH];
    cbn [entry_loop flat_map fst snd]; [reflexivity|].
  unfold entry_signals_for.
  destruct (String.eqb_spec (combination_mode self) "AND") as [E|_];
    [contradiction|].
  rewrite or_signals_ungated, IH. reflexivity.
Qed.

(** X25.  In OR mode and without a risk manager the engine does not pick a
    best signal: for every exchange, every active entry condition that gives
    a signal contributes that signal, tagged "OR", in configuration order. *)
Theorem engine_or_mode_keeps_every_signal :
  forall (today : Z) (self : TradingEngine),
    combination_mode self <> "AND" ->
    risk_manager self = None ->
    _evaluate_entry_conditions today self
    = (Ret (flat_map
              (fun entry : string * MarketData =>
                 map (set_meta "combination" (MStr "OR"))
                   (condition_signals (fst entry) (snd entry)
                      (entry_conditions self)))
              (market_data_cache self)), None).
Proof.
  intros today self Hmode Hrm. unfold _evaluate_entry_conditions.
  rewrite Hrm.
  destruct (entry_conditions self) as [|c cs] eqn:Ec.
  - f_equal. f_equal. induction (market_data_cache self) as [|e l IH];
      [reflexivity|]. cbn [flat_map]. rewrite <- IH. reflexivity.
  - rewrite <- Ec. apply entry_loop_ungated. exact Hmode.
Qed.

Lemma engine_or_mode_keeps_every_signal_witness :
  combination_mode TickTerms.both_engine <> "AND"
  /\ risk_manager TickTerms.both_engine = None
  /\ exists s, fst (_evaluate_entry_conditions 0 TickTerms.both_engine)
               = Ret [s].
Proof.
  split; [discriminate|]. split; [reflexivity|].
  rewrite (engine_or_mode_keeps_every_signal 0 TickTerms.both_engine);
    [|discriminate|reflexivity].
  eexists. reflexivity.
Defined.

(** The gate of a manager without the balance attributes answers [False] or
    raises [AttributeError], and the manager stays without them. *)
Lemma risk_gate_closed today r s :
  RiskTerms.lacks_balance_attributes r ->
  exists r',
    snd (risk_gate today (Some r) s) = Some r'
    /\ RiskTerms.lacks_balance_attributes r'
    /\ (fst (risk_gate today (Some r) s) = Ret false
        \/ fst (risk_gate today (Some r) s) = Raise AttributeError).
Proof.
  intros Hl. unfold risk_gate.
  pose proof (RiskSpec.validate_entry_signal_state today r s) as Hst.
  pose proof (RiskSpec.check_daily_trades_attributes today r Hl) as Hl'.
  pose proof (RiskSpec.validate_raises today r s Hl) as Hraise.
  destruct (Risk.validate_entry_signal today r s) as [b r'] eqn:Ev.
  cbn [fst snd] in *. exists r'. split; [reflexivity|].
  split; [rewrite Hst; exact Hl'|].
  unfold Risk.validate_entry_signal in Ev.
  destruct (Risk._check_daily_trades today r) as [ok r0].
  cbn [fst snd] in *. destruct ok; cbn [negb] in Ev.
  - destruct (Risk._check_max_positions r0) eqn:Ep; cbn [negb] in Ev.
    + right. injection Ev as <- _. apply Hraise; reflexivity.
    + left. injection Ev as <- _. reflexivity.
  - left. injection Ev as <- _. reflexivity.
Qed.

Lemma or_signals_closed today signals :
  forall r,
    RiskTerms.lacks_balance_attributes r ->
    exists r',
      snd (or_signals today (Some r) signals) = Some r'
      /\ RiskTerms.lacks_balance_attributes r'
      /\ (fst (or_signals today (Some r) signals) = Ret []
          \/ fst (or_signals today (Some r) signals) = Raise AttributeError).
Proof.
  induction signals as [|s rest IH]; intros r Hl; cbn [or_signals].
  - exists r. auto.
  - destruct (risk_gate_closed today r
                (set_meta "combination" (MStr "OR") s) Hl)
      as (r1 & Hs & Hl1 & Hres).
    destruct (risk_gate today (Some r) _) as [b rm1]. cbn [fst snd] in *.
    subst rm1. destruct Hres as [-> | ->].
    + destruct (IH r1 Hl1) as (r2 & Hs2 & Hl2 & Hres2).
      destruct (or_signals today (Some r1) rest) as [res rm2].
      cbn [fst snd] in *. subst rm2.
      destruct Hres2 as [-> | ->]; exists r2; auto.
    + exists r1. auto.
Qed.

Lemma entry_loop_closed today self cache :
  forall r,
    RiskTerms.lacks_balance_attributes r ->
    exists r',
      snd (entry_loop today self (Some r) cache) = Some r'
      /\ RiskTerms.lacks_balance_attributes r'
      /\ (fst (entry_loop today self (Some r) cache) = Ret []
          \/ fst (entry_loop today self (Some r) cache)
             = Raise AttributeError).
Proof.
  induction cache as [|[ex md] cache IH]; intros r Hl; cbn [entry_loop].
  - exists r. auto.
  - assert (Hhere : exists r1,
      snd (entry_signals_for today self (Some r) ex md) = Some r1
      /\ RiskTerms.lacks_balance_attributes r1
      /\ (fst (entry_signals_for today self (Some r) ex md) = Ret []
          \/ fst (entry_signals_for today self (Some r) ex md)
             = Raise AttributeError)).
    { unfold entry_signals_for.
      destruct (String.eqb (combination_mode self) "AND").
      - destruct (and_candidate _ _) as [best|]; [|exists r; auto].
        destruct (risk_gate_closed today r best Hl)
          as (r1 & Hs & Hl1 & Hres).
        destruct (risk_gate today (Some r) best) as [b rm1].
        cbn [fst snd] in *. subst rm1.
        destruct Hres as [-> | ->]; exists r1; auto.
      - apply or_signals_closed. exact Hl. }
    destruct Hhere as (r1 & Hs & Hl1 & Hres).
    destruct (entry_signals_for today self (Some r) ex md) as [res rm1].
    cbn [fst snd] in *. subst rm1. destruct Hres as [-> | ->].
    + destruct (IH r1 Hl1) as (r2 & Hs2 & Hl2 & Hres2).
      destruct (entry_loop today self (Some r1) cache) as [res rm2].
      cbn [fst snd] in *. subst rm2.
      destruct Hres2 as [-> | ->]; exists r2; auto.
    + exists r1. auto.
Qed.

(** X26.  With a [RiskManager] attached (in any state it can reach) the
    engine never obtains an entry signal: [_evaluate_entry_conditions]
    returns the empty list or raises [AttributeError], in both combination
    modes, so no tick executes an entry. *)
Theorem attached_risk_manager_blocks_every_entry :
  forall (today : Z) (self : TradingEngine) (r : Risk.RiskManager),
    risk_manager self = Some r ->
    Risk.reachable r ->
    (fst (_evaluate_entry_conditions today self) = Ret []
     \/ fst (_evaluate_entry_conditions today self) = Raise AttributeError)
    /\ forall tick rm,
         _run_trading_cycle today self = (Ret tick, rm) ->
         forall s, ~ In (ExecuteEntry s) (executed tick).
Proof.
  intros today self r Hrm Hreach.
  apply RiskSpec.reachable_lacks_balance_attributes in Hreach.
  assert (Hentry :
    fst (_evaluate_entry_conditions today self) = Ret []
    \/ fst (_evaluate_entry_conditions today self) = Raise AttributeError).
  { unfold _evaluate_entry_conditions. rewrite Hrm.
    destruct (entry_conditions self); [now left|].
    destruct (entry_loop_closed today self (market_data_cache self) r Hreach)
      as (r' & _ & _ & H). exact H. }
  split; [exact Hentry|].
  intros tick rm. unfold _run_trading_cycle.
  destruct (is_trading_enabled self); cbn [negb];
    [|intros [= <- _] s []].
  destruct (entry_conditions self) as [|c cs] eqn:Ec.
  - intros [= <- _] s. cbn [executed].
    destruct (exit_conditions self); [intros []|].
    destruct (_evaluate_exit_conditions self); [intros []|].
    unfold _execute_signals. rewrite app_nil_r. intros Hin.
    apply in_map_iff in Hin. destruct Hin as (x & Hx & _). discriminate.
  - destruct (_evaluate_entry_conditions today self) as [res rm'].
    cbn [fst] in Hentry. destruct Hentry as [-> | ->]; [|discriminate].
    intros [= <- _] s. cbn [executed].
    destruct (exit_conditions self); [intros []|].
    destruct (_evaluate_exit_conditions self); [intros []|].
    unfold _execute_signals. rewrite app_nil_r. intros Hin.
    apply in_map_iff in Hin. destruct Hin as (x & Hx & _). discriminate.
Qed.

Lemma attached_risk_manager_blocks_every_entry_witness :
  let gated :=
    with_risk_manager TickTerms.both_engine
      (Some (Risk.RiskManager_init RiskTerms.default_config 0)) in
  risk_manager gated = Some (Risk.RiskManager_init RiskTerms.default_config 0)
  /\ Risk.reachable (Risk.RiskManager_init RiskTerms.default_config 0)
  /\ (fst (_evaluate_entry_conditions 0 gated) = Ret []
      \/ fst (_evaluate_entry_conditions 0 gated) = Raise AttributeError).
Proof.
  cbv zeta. split; [reflexivity|]. split; [apply Risk.reach_init|].
  apply (attached_risk_manager_blocks_every_entry 0
           (with_risk_manager TickTerms.both_engine
              (Some (Risk.RiskManager_init RiskTerms.default_config 0)))
           (Risk.RiskManager_init RiskTerms.default_config 0)).
  - reflexivity.
  - apply Risk.reach_init.
Defined.

End GateSpec.

(** ** conditions/exit_condition_factory.py: the tick rules *)
Module TickRulesSpec.
Import Models TickRules TickRulesTerms.

Lemma tick_additional_step self md position a self' :
  tick_additional_evaluate self md position = Ret (a, self') ->
  (a = None /\ self' = self)
  \/ (exists sz, a = Some (AddPosition sz)
      /\ additional_entries self < max_additional_entries self
      /\ self' = count_entry self).
Proof.
  unfold tick_additional_evaluate.
  destruct position as [pos|]; [|intros [= <- <-]; now left].
  destruct (additional_entries self <? max_additional_entries self) eqn:El;
    [|intros [= <- <-]; now left].
  apply Z.ltb_lt in El.
  destruct (side pos) as [[|]|]; [| |intros [= <- <-]; now left].
  - destruct (pydiv _ _) as [mv|]; cbn [mbind result_bind]; [|discriminate].
    destruct (Qgeb mv (down_ticks self)); intros [= <- <-];
      [right; eauto|now left].
  - destruct (pydiv _ _) as [mv|]; cbn [mbind result_bind]; [|discriminate].
    destruct (Qgeb mv (up_ticks self)); intros [= <- <-];
      [right; eauto|now left].
Qed.

Lemma tick_additional_run_bound ticks :
  forall self,
    Z.of_nat (additions (tick_additional_run self ticks))
    <= Z.max 0 (max_additional_entries self - additional_entries self).
Proof.
  induction ticks as [|[md position] ticks IH]; intros self;
    cbn [tick_additional_run]; [unfold additions; simpl; lia|].
  destruct (tick_additional_evaluate self md position) as [[a self']|] eqn:Ev;
    [|unfold additions; simpl; lia].
  specialize (IH self').
  destruct (tick_additional_step _ _ _ _ _ Ev)
    as [[-> ->] | (sz & -> & Hlt & ->)].
  - unfold additions in *. cbn [List.filter]. exact IH.
  - unfold additions in *. cbn [List.filter length].
    cbn [count_entry additional_entries max_additional_entries] in IH. lia.
Qed.

(** X27.  A [TickAdditionalEntryCondition] returns at most three
    [add_position] answers over its whole life, whatever the ticks and the
    positions it is shown: its counter is never reset, so once it has
    reached the maximum every later answer is [None]. *)
Theorem at_most_three_additional_entries :
  forall (up_ticks down_ticks ratio : Q)
         (ticks : list (MarketData * option Position)),
    (additions
       (tick_additional_run
          (TickAdditionalEntryCondition_init up_ticks down_ticks ratio)
          ticks) <= 3)%nat
    /\ forall self later,
         max_additional_entries self <= additional_entries self ->
         Forall (fun a => a = None) (tick_additional_run self later).
Proof.
  intros up down ratio ticks. split.
  - pose proof (tick_additional_run_bound ticks
                  (TickAdditionalEntryCondition_init up down ratio)) as H.
    cbn [TickAdditionalEntryCondition_init max_additional_entries
         additional_entries] in H. lia.
  - intros self later. revert self.
    induction later as [|[md position] later IH]; intros self Hfull;
      cbn [tick_additional_run]; [constructor|].
    destruct (tick_additional_evaluate self md position) as [[a self']|]
      eqn:Ev; [|constructor].
    destruct (tick_additional_step _ _ _ _ _ Ev)
      as [[-> ->] | (sz & -> & Hlt & ->)]; [|lia].
    constructor; [reflexivity|]. apply IH. exact Hfull.
Qed.

(** X28.  [PCBreakevenCondition.evaluate] works in two phases.  While the
    line has not been touched and the price of a long position is above the
    lower channel line, the answer is [None] and the condition is
    unchanged.  A close for a long position is answered only when the price
    is at least [long_ticks] ticks below the touch price, which is the one
    stored earlier or the lower line touched in this very call.  Every close
    puts the condition back into the untouched state. *)
Theorem breakeven_waits_for_touch_then_ticks :
  forall (self self' : PCBreakevenCondition) (md : MarketData)
         (pos : Position) (answer : option Action),
    pc_breakeven_evaluate self md (Some pos) = Ret (answer, self') ->
    (answer <> None -> pc_touched self' = false /\ touch_price self' = None)
    /\ (pc_touched self = false -> side pos = SideOf LONG ->
        (forall line,
           pymin_list (slice_from (-20) (low_prices md)) = Ret line ->
           (line < md_current_price md)%Q) ->
        answer = None /\ self' = self)
    /\ (answer = Some CloseAfterLowerTouch ->
        side pos = SideOf LONG
        /\ exists touched_at move,
             ((pc_touched self = true /\ touch_price self = Some touched_at)
              \/ (pc_touched self = false
                  /\ pymin_list (slice_from (-20) (low_prices md))
                     = Ret touched_at
                  /\ (md_current_price md <= touched_at)%Q))
             /\ pydiv (touched_at - md_current_price md) (tick_size self)
                = Ret move
             /\ (long_ticks self <= move)%Q).
Proof.
  intros self self' md pos answer. unfold pc_breakeven_evaluate.
  destruct (_ <? _).
  { intros [= <- <-]. repeat split; try congruence. }
  destruct (pymax_list _) as [pc_upper|]; cbn [mbind result_bind];
    [|discriminate].
  destruct (pymin_list _) as [pc_lower|]; cbn [mbind result_bind];
    [|discriminate].
  destruct (side pos) as [[|]|] eqn:Eside.
  - (* long *)
    destruct (pc_touched self) eqn:Et; cbn [negb andb]; cbv zeta.
    + rewrite Et. destruct (truthy (touch_price self)) as [tp|] eqn:Etp.
      * destruct (pydiv _ _) as [mv|] eqn:Ed; cbn [mbind result_bind];
          [|discriminate].
        destruct (Qgeb mv (long_ticks self)) eqn:Eg; intros [= <- <-].
        -- split; [intros _; split; reflexivity|].
           split; [discriminate|]. intros _. split; [reflexivity|].
           exists tp, mv. unfold Qgeb in Eg. apply Qleb_le in Eg.
           split; [left; split; [reflexivity|]|split; assumption].
           unfold truthy in Etp. destruct (touch_price self) as [v|];
             [|discriminate]. destruct (Qeqb v 0); congruence.
        -- repeat split; try congruence; discriminate.
      * intros [= <- <-].
        repeat split; try congruence; discriminate.
    + destruct (Qleb (md_current_price md) pc_lower) eqn:El.
      * cbn [touch pc_touched touch_price tick_size long_ticks].
        destruct (truthy (Some pc_lower)) as [tp|] eqn:Etp.
        -- assert (tp = pc_lower).
           { unfold truthy in Etp. destruct (Qeqb pc_lower 0); congruence. }
           subst tp.
           destruct (pydiv _ _) as [mv|] eqn:Ed; cbn [mbind result_bind];
             [|discriminate].
           destruct (Qgeb mv (long_ticks self)) eqn:Eg; intros [= <- <-].
           ++ split; [intros _; split; reflexivity|]. split.
              { intros _ _ Habove. specialize (Habove pc_lower eq_refl).
                apply Qleb_le in El. lra. }
              intros _. split; [reflexivity|].
              exists pc_lower, mv. unfold Qgeb in Eg. apply Qleb_le in Eg.
              apply Qleb_le in El.
              split; [right; auto|split; assumption].
           ++ split; [congruence|]. split; [|discriminate].
              intros _ _ Habove. specialize (Habove pc_lower eq_refl).
              apply Qleb_le in El. lra.
        -- intros [= <- <-]. split; [congruence|]. split; [|discriminate].
           intros _ _ Habove. specialize (Habove pc_lower eq_refl).
           apply Qleb_le in El. lra.
      * rewrite Et. intros [= <- <-].
        repeat split; try congruence; discriminate.
  - (* short *)
    cbv zeta.
    repeat match goal with
           | |- context [pydiv ?a ?b] =>
               destruct (pydiv a b); cbn [mbind result_bind]
           | |- context [truthy ?x] => destruct (truthy x)
           | |- context [if ?c then _ else _] => destruct c
           end;
      try discriminate; intros [= <- <-];
      (split; [first [congruence | intros _; split; reflexivity]|]);
      (split; [intros; congruence|discriminate]).
  - intros [= <- <-]. repeat split; try congruence; discriminate.
Qed.

Lemma breakeven_waits_for_touch_then_ticks_witness :
  let self := PCBreakevenCondition_init 10 10 in
  let md := mkMarketData "BTCUSDT" 89 [95%Q] (repeat 100%Q 20)
              (repeat 90%Q 20) 0 0 in
  let pos := mkPosition "BTCUSDT" (SideOf LONG) 1 95 89 0 0 1 0 0 in
  pc_breakeven_evaluate self md (Some pos)
  = Ret (Some CloseAfterLowerTouch, self)
  /\ exists touched_at move,
       pydiv (touched_at - md_current_price md) (tick_size self) = Ret move
       /\ (long_ticks self <= move)%Q.
Proof.
  cbv zeta.
  assert (Ev : pc_breakeven_evaluate (PCBreakevenCondition_init 10 10)
                 (mkMarketData "BTCUSDT" 89 [95%Q] (repeat 100%Q 20)
                    (repeat 90%Q 20) 0 0)
                 (Some (mkPosition "BTCUSDT" (SideOf LONG) 1 95 89 0 0 1 0 0))
               = Ret (Some CloseAfterLowerTouch,
                      PCBreakevenCondition_init 10 10))
    by (vm_compute; reflexivity).
  split; [exact Ev|].
  destruct (breakeven_waits_for_touch_then_ticks _ _ _ _ _ Ev)
    as (_ & _ & Hclose).
  destruct (Hclose eq_refl) as (_ & touched_at & move & _ & Hmove & Hle).
  exists touched_at, move. split; [exact Hmove|exact Hle].
Defined.

(** X29.  [PCBreakevenCondition.evaluate] checks only the number of high
    prices: with twenty highs and no low price at all it raises
    [ValueError] instead of answering [None]. *)
Theorem breakeven_raises_without_lows :
  forall (self : PCBreakevenCondition) (md : MarketData) (pos : Position),
    20 <= Z.of_nat (length (high_prices md)) ->
    low_prices md = [] ->
    pc_breakeven_evaluate self md (Some pos) = Raise ValueError.
Proof.
  intros self md pos Hh Hl. unfold pc_breakeven_evaluate.
  assert (E : (Z.of_nat (length (high_prices md)) <? 20) = false)
    by (apply Z.ltb_ge; exact Hh).
  rewrite E, Hl. unfold pymax_list.
  destruct (slice_from (-20) (high_prices md)); reflexivity.
Qed.

Lemma breakeven_raises_without_lows_witness :
  let md := mkMarketData "BTCUSDT" 100 [100%Q] (repeat 100%Q 20) [] 0 0 in
  let pos := mkPosition "BTCUSDT" (SideOf LONG) 1 95 100 0 0 1 0 0 in
  pc_breakeven_evaluate (PCBreakevenCondition_init 10 10) md (Some pos)
  = Raise ValueError.
Proof.
  cbv zeta. apply breakeven_raises_without_lows;
    [vm_compute; discriminate|reflexivity].
Defined.

End TickRulesSpec.

(** ** conditions/condition_factory.py: the dead band of the cross *)
Module CrossingSpec.
Import Models Crossing.




End CrossingSpec.
